(** * OnlinedataController: download chain, reschedule policy and aircraft cache

    A shallow embedding of [src/online/onlinedatacontroller.cpp].  The
    controller is a record that is threaded through every member function;
    everything the controller does to the outside (the HTTP downloader, the
    recurring timer, Qt signals, modal dialogs, SQL queries) is appended to
    an effect trace, oldest first.  Collaborators that live outside the file
    (the online data manager, geometry helpers, the text codec, the clock)
    are interfaces, given as type classes. *)

From Stdlib Require Import ZArith QArith.
From stdpp Require Import gmap strings list fin_maps.

Local Open Scope Z_scope.

(** ** Enumerations *)

(** [OnlinedataController::State], the stage of the download chain. *)
Inductive State : Set :=
| NONE
| DOWNLOADING_STATUS
| DOWNLOADING_WHAZZUP
| DOWNLOADING_WHAZZUP_SERVERS.

(** [opts::OnlineNetwork] *)
Inductive OnlineNetwork : Set :=
| ONLINE_NONE
| ONLINE_VATSIM
| ONLINE_IVAO
| ONLINE_CUSTOM_STATUS
| ONLINE_CUSTOM.

(** [opts::OnlineFormat] *)
Inductive OnlineFormat : Set :=
| ONLINE_FORMAT_VATSIM
| ONLINE_FORMAT_IVAO.

(** [atools::fs::online::Format] *)
Inductive Format : Set :=
| VATSIM
| IVAO
| UNKNOWN.

#[global] Instance State_eq_dec : EqDecision State.
Proof. solve_decision. Defined.

#[global] Instance OnlineNetwork_eq_dec : EqDecision OnlineNetwork.
Proof. solve_decision. Defined.

(** Both enumerators are covered by the switch, the trailing
    [return UNKNOWN] is only reached by a value outside the enumeration. *)
Definition convertFormat (format : OnlineFormat) : Format :=
  match format with
  | ONLINE_FORMAT_VATSIM => VATSIM
  | ONLINE_FORMAT_IVAO => IVAO
  end.

(** ** Machine integers and strings *)

(** A C++ [int]: 32 bit, two's complement, wrap-around written out. *)
Definition int_wrap (z : Z) : Z := (z + 2 ^ 31) mod 2 ^ 32 - 2 ^ 31.

Definition int_range (z : Z) : Prop := - 2 ^ 31 <= z < 2 ^ 31.

(** [QString::isEmpty] *)
Definition isEmpty (s : string) : bool :=
  match s with
  | EmptyString => true
  | String _ _ => false
  end.

(** [a > b] on the rationals that stand for C++ floating point values. *)
Definition Qgt_bool (a b : Q) : bool := negb (Qle_bool a b).

(** [QDateTime] is a count of milliseconds since the epoch. *)
Definition QDateTime := Z.

Definition addSecs (t : QDateTime) (secs : Z) : QDateTime := t + secs * 1000.

Definition fromSecsSinceEpoch (secs : Z) : QDateTime := secs * 1000.

Definition MIN_SERVER_DOWNLOAD_INTERVAL_MIN : Z := 15.

(** ** Interfaces of the collaborators *)

(** Geometry: [atools::geo], [Marble::GeoDataLatLonBox], [MapLayer] and the
    helpers of namespace [query].  Distances are floating point in the
    source and rationals here. *)
Class GeoApi := {
  Pos : Type;
  Pos_default : Pos;
  distanceMeterTo : Pos -> Pos -> Q;
  nmToMeter : Z -> Z;
  GeoDataLatLonBox : Type;
  MapLayer : Type;
  hasSameQueryParametersWaypoint : MapLayer -> MapLayer -> bool;
  splitAtAntiMeridian : GeoDataLatLonBox -> Q -> Q -> list GeoDataLatLonBox;
  inflatedContains : GeoDataLatLonBox -> Q -> Q -> GeoDataLatLonBox -> bool
}.

(** [atools::fs::sc::SimConnectAircraft], the fields the controller reads. *)
Record SimConnectAircraft `{GeoApi} := {
  getObjectId : Z;
  getAirplaneRegistration : string;
  getPosition : Pos
}.

(** [atools::fs::online::OnlinedataManager] and the client table of its
    database.  [getWhazzupUrlFromStatus] takes the flag it receives by
    reference and returns it next to the URL. *)
Class ManagerApi `{GeoApi} := {
  OnlinedataManager : Type;
  SqlRecord : Type;
  readFromStatus : OnlinedataManager -> string -> OnlinedataManager;
  getWhazzupUrlFromStatus : OnlinedataManager -> bool -> string * bool;
  getMessageFromStatus : OnlinedataManager -> string;
  readFromWhazzup :
    OnlinedataManager -> string -> Format -> QDateTime -> OnlinedataManager * bool;
  getLastUpdateTimeFromWhazzup : OnlinedataManager -> QDateTime;
  getWhazzupVoiceUrlFromStatus : OnlinedataManager -> string;
  readServersFromWhazzup :
    OnlinedataManager -> string -> Format -> QDateTime -> OnlinedataManager;
  getReloadMinutesFromWhazzup : OnlinedataManager -> Z;
  resetForNewOptions : OnlinedataManager -> OnlinedataManager;
  clearData : OnlinedataManager -> OnlinedataManager;
  managerInitQueries : OnlinedataManager -> OnlinedataManager;
  managerDeInitQueries : OnlinedataManager -> OnlinedataManager;
  selectClientsInRect : OnlinedataManager -> GeoDataLatLonBox -> list SqlRecord;
  fillFromClient : SqlRecord -> SimConnectAircraft
}.

(** Text codec, gzip, the wall clock and the hash tables of Qt.
    [currentDateTime n] is what the [n]-th call of
    [QDateTime::currentDateTime] returns.  [hashKeys] is [QHash::keys] of
    a [QHash<QString, Pos>]: the keys of a table in the iteration order of
    the table.  That order is arbitrary; all that is known of the list is
    which keys it holds. *)
Class PlatformApi `{GeoApi} := {
  toUnicode : list Byte.byte -> string;
  gzipDecompress : list Byte.byte -> bool * list Byte.byte;
  currentDateTime : nat -> QDateTime;
  hashKeys : gmap string Pos -> list string;
  hashKeys_spec :
    forall (m : gmap string Pos) (k : string),
      k ∈ hashKeys m <-> is_Some (m !! k)
}.

(** [OptionData], the configuration singleton, as far as it is read here. *)
Record OptionData := {
  getOnlineNetwork : OnlineNetwork;
  getOnlineStatusUrl : string;
  getOnlineWhazzupUrl : string;
  getOnlineFormat : OnlineFormat;
  getOnlineReloadTimeSeconds : Z;
  getOnlineReloadTimeSecondsConfig : Z
}.

(** What the handlers read from the application singletons: [OptionData],
    the [lnm::OPTIONS_NO_USER_AGENT] setting and the simulator data of
    [NavApp]. *)
Record NavApp `{GeoApi} := {
  optionData : OptionData;
  optionsNoUserAgent : bool;
  getUserAircraft : SimConnectAircraft;
  userAircraftIsDebug : bool;
  isConnected : bool;
  getAiAircraft : list SimConnectAircraft
}.

(** ** Effects *)

Inductive Signal : Set :=
| onlineClientAndAtcUpdated (loadAll keepSelection : bool)
| onlineServersUpdated (loadAll keepSelection : bool)
| onlineNetworkChanged.

Inductive Effect `{GeoApi} :=
| CancelDownload
| SetUrl (url : string)
| SetDefaultUserAgentShort (agent : string)
| PostStartDownload
| PostShowMessageDialog
| TimerStop
| TimerStart (msec : Z)
| Emit (sig : Signal)
| WarningBox (url error : string)
| QueryExec (rect : GeoDataLatLonBox).

(** The signals among a list of effects, in the order of emission. *)
Fixpoint signalsOf `{GeoApi} (es : list Effect) : list Signal :=
  match es with
  | [] => []
  | Emit sig :: rest => sig :: signalsOf rest
  | _ :: rest => signalsOf rest
  end.

(** The rectangles of the SQL queries among a list of effects. *)
Fixpoint queriesOf `{GeoApi} (es : list Effect) : list GeoDataLatLonBox :=
  match es with
  | [] => []
  | QueryExec r :: rest => r :: queriesOf rest
  | _ :: rest => queriesOf rest
  end.

(** ** The rectangle cache *)

Section SimpleRectCache.
Context {geo : GeoApi}.

(** Modelled from the spec: the template [SimpleRectCache] is declared in
    a header outside this file.  The spec describes it as an ordered
    sequence of records plus the bounding parameters used to decide
    whether a re-query is required. *)
Record SimpleRectCache := {
  curRect : option GeoDataLatLonBox;
  curMapLayer : option MapLayer;
  cacheList : list SimConnectAircraft
}.

(** Modelled from the spec: [SimpleRectCache::clear] is missing; it
    empties the cache unconditionally. *)
Definition cache_clear (_ : SimpleRectCache) : SimpleRectCache :=
  {| curRect := None; curMapLayer := None; cacheList := [] |}.

(** Modelled from the spec: [SimpleRectCache::updateCache] is missing.  A
    lazy query accepts the cache as it is; otherwise the cache is
    invalidated when the parameters changed, that is when the inflated
    remembered rectangle does not cover the new one or the layer has
    other query parameters. *)
Definition updateCache (rect : GeoDataLatLonBox) (mapLayer : MapLayer)
    (factor increment : Q) (lazy : bool)
    (funcSameLayer : MapLayer -> MapLayer -> bool)
    (cache : SimpleRectCache) : SimpleRectCache :=
  if lazy then cache
  else
    match curRect cache, curMapLayer cache with
    | Some cur, Some curLayer =>
        if inflatedContains cur factor increment rect
           && funcSameLayer curLayer mapLayer
        then cache
        else {| curRect := Some rect; curMapLayer := Some mapLayer;
                cacheList := [] |}
    | _, _ =>
        {| curRect := Some rect; curMapLayer := Some mapLayer;
           cacheList := [] |}
    end.

(** Modelled from the spec: [SimpleRectCache::validate] is missing; it
    applies the row-count ceiling by truncating the sequence to at most
    [queryMaxRows] records. *)
Definition validate (queryMaxRows : Z) (cache : SimpleRectCache)
    : SimpleRectCache :=
  {| curRect := curRect cache; curMapLayer := curMapLayer cache;
     cacheList := take (Z.to_nat queryMaxRows) (cacheList cache) |}.

(** Assignment to the public member [list]. *)
Definition cache_setList (l : list SimConnectAircraft)
    (cache : SimpleRectCache) : SimpleRectCache :=
  {| curRect := curRect cache; curMapLayer := curMapLayer cache;
     cacheList := l |}.
End SimpleRectCache.

(** ** The controller *)

Section Controller.
Context {geo : GeoApi} {mgr : ManagerApi} {plat : PlatformApi}.

(** The data members of [OnlinedataController].  [aircraftByRectQuery]
    tells whether the prepared query exists (the pointer is not null);
    [timerActive] and [timerInterval] are the state of [downloadTimer];
    [clockReads] counts the calls of [QDateTime::currentDateTime]. *)
Record Controller := {
  manager : OnlinedataManager;
  currentState : State;
  whazzupGzipped : bool;
  lastUpdateTime : QDateTime;
  lastServerDownload : QDateTime;
  aircraftCache : SimpleRectCache;
  simulatorAiRegistrations : gmap string Pos;
  aircraftByRectQuery : bool;
  timerActive : bool;
  timerInterval : Z;
  clockReads : nat;
  effects : list Effect
}.

Definition set_manager (m : OnlinedataManager) (c : Controller) :=
  {| manager := m; currentState := currentState c;
     whazzupGzipped := whazzupGzipped c; lastUpdateTime := lastUpdateTime c;
     lastServerDownload := lastServerDownload c;
     aircraftCache := aircraftCache c;
     simulatorAiRegistrations := simulatorAiRegistrations c;
     aircraftByRectQuery := aircraftByRectQuery c;
     timerActive := timerActive c; timerInterval := timerInterval c;
     clockReads := clockReads c; effects := effects c |}.

Definition set_currentState (st : State) (c : Controller) :=
  {| manager := manager c; currentState := st;
     whazzupGzipped := whazzupGzipped c; lastUpdateTime := lastUpdateTime c;
     lastServerDownload := lastServerDownload c;
     aircraftCache := aircraftCache c;
     simulatorAiRegistrations := simulatorAiRegistrations c;
     aircraftByRectQuery := aircraftByRectQuery c;
     timerActive := timerActive c; timerInterval := timerInterval c;
     clockReads := clockReads c; effects := effects c |}.

Definition set_whazzupGzipped (b : bool) (c : Controller) :=
  {| manager := manager c; currentState := currentState c;
     whazzupGzipped := b; lastUpdateTime := lastUpdateTime c;
     lastServerDownload := lastServerDownload c;
     aircraftCache := aircraftCache c;
     simulatorAiRegistrations := simulatorAiRegistrations c;
     aircraftByRectQuery := aircraftByRectQuery c;
     timerActive := timerActive c; timerInterval := timerInterval c;
     clockReads := clockReads c; effects := effects c |}.

Definition set_lastUpdateTime (t : QDateTime) (c : Controller) :=
  {| manager := manager c; currentState := currentState c;
     whazzupGzipped := whazzupGzipped c; lastUpdateTime := t;
     lastServerDownload := lastServerDownload c;
     aircraftCache := aircraftCache c;
     simulatorAiRegistrations := simulatorAiRegistrations c;
     aircraftByRectQuery := aircraftByRectQuery c;
     timerActive := timerActive c; timerInterval := timerInterval c;
     clockReads := clockReads c; effects := effects c |}.

Definition set_lastServerDownload (t : QDateTime) (c : Controller) :=
  {| manager := manager c; currentState := currentState c;
     whazzupGzipped := whazzupGzipped c; lastUpdateTime := lastUpdateTime c;
     lastServerDownload := t;
     aircraftCache := aircraftCache c;
     simulatorAiRegistrations := simulatorAiRegistrations c;
     aircraftByRectQuery := aircraftByRectQuery c;
     timerActive := timerActive c; timerInterval := timerInterval c;
     clockReads := clockReads c; effects := effects c |}.

Definition set_aircraftCache (cache : SimpleRectCache) (c : Controller) :=
  {| manager := manager c; currentState := currentState c;
     whazzupGzipped := whazzupGzipped c; lastUpdateTime := lastUpdateTime c;
     lastServerDownload := lastServerDownload c;
     aircraftCache := cache;
     simulatorAiRegistrations := simulatorAiRegistrations c;
     aircraftByRectQuery := aircraftByRectQuery c;
     timerActive := timerActive c; timerInterval := timerInterval c;
     clockReads := clockReads c; effects := effects c |}.

Definition set_simulatorAiRegistrations (regs : gmap string Pos)
    (c : Controller) :=
  {| manager := manager c; currentState := currentState c;
     whazzupGzipped := whazzupGzipped c; lastUpdateTime := lastUpdateTime c;
     lastServerDownload := lastServerDownload c;
     aircraftCache := aircraftCache c;
     simulatorAiRegistrations := regs;
     aircraftByRectQuery := aircraftByRectQuery c;
     timerActive := timerActive c; timerInterval := timerInterval c;
     clockReads := clockReads c; effects := effects c |}.

Definition set_aircraftByRectQuery (b : bool) (c : Controller) :=
  {| manager := manager c; currentState := currentState c;
     whazzupGzipped := whazzupGzipped c; lastUpdateTime := lastUpdateTime c;
     lastServerDownload := lastServerDownload c;
     aircraftCache := aircraftCache c;
     simulatorAiRegistrations := simulatorAiRegistrations c;
     aircraftByRectQuery := b;
     timerActive := timerActive c; timerInterval := timerInterval c;
     clockReads := clockReads c; effects := effects c |}.

Definition set_timer (active : bool) (interval : Z) (c : Controller) :=
  {| manager := manager c; currentState := currentState c;
     whazzupGzipped := whazzupGzipped c; lastUpdateTime := lastUpdateTime c;
     lastServerDownload := lastServerDownload c;
     aircraftCache := aircraftCache c;
     simulatorAiRegistrations := simulatorAiRegistrations c;
     aircraftByRectQuery := aircraftByRectQuery c;
     timerActive := active; timerInterval := interval;
     clockReads := clockReads c; effects := effects c |}.

Definition set_clockReads (n : nat) (c : Controller) :=
  {| manager := manager c; currentState := currentState c;
     whazzupGzipped := whazzupGzipped c; lastUpdateTime := lastUpdateTime c;
     lastServerDownload := lastServerDownload c;
     aircraftCache := aircraftCache c;
     simulatorAiRegistrations := simulatorAiRegistrations c;
     aircraftByRectQuery := aircraftByRectQuery c;
     timerActive := timerActive c; timerInterval := timerInterval c;
     clockReads := n; effects := effects c |}.

(** Performs an effect: it goes to the end of the trace. *)
Definition effect (e : Effect) (c : Controller) :=
  {| manager := manager c; currentState := currentState c;
     whazzupGzipped := whazzupGzipped c; lastUpdateTime := lastUpdateTime c;
     lastServerDownload := lastServerDownload c;
     aircraftCache := aircraftCache c;
     simulatorAiRegistrations := simulatorAiRegistrations c;
     aircraftByRectQuery := aircraftByRectQuery c;
     timerActive := timerActive c; timerInterval := timerInterval c;
     clockReads := clockReads c; effects := effects c ++ [e] |}.

(** *** Small steps on the members *)

(** [QDateTime::currentDateTime()] *)
Definition readClock (c : Controller) : QDateTime * Controller :=
  (currentDateTime (clockReads c), set_clockReads (S (clockReads c)) c).

(** [downloadTimer.stop()] *)
Definition timerStop (c : Controller) : Controller :=
  effect TimerStop (set_timer false (timerInterval c) c).

(** [downloadTimer.setInterval(msec)] *)
Definition timerSetInterval (msec : Z) (c : Controller) : Controller :=
  set_timer (timerActive c) msec c.

(** [downloadTimer.start()] *)
Definition timerStart (c : Controller) : Controller :=
  effect (TimerStart (timerInterval c)) (set_timer true (timerInterval c) c).

(** [downloader->setUrl(url)] followed by
    [QTimer::singleShot(0, downloader, &HttpDownloader::startDownload)] *)
Definition triggerDownload (url : string) (c : Controller) : Controller :=
  effect PostStartDownload (effect (SetUrl url) c).

(** [aircraftCache.clear()] *)
Definition aircraftCacheClear (c : Controller) : Controller :=
  set_aircraftCache (cache_clear (aircraftCache c)) c.

(** *** Reschedule policy *)

(** The local [intervalSeconds] of [startDownloadTimer]. *)
Definition intervalSeconds (od : OptionData) (m : OnlinedataManager) : Z :=
  let onlineNetwork := getOnlineNetwork od in
  if bool_decide (onlineNetwork = ONLINE_CUSTOM)
     || bool_decide (onlineNetwork = ONLINE_CUSTOM_STATUS)
  then getOnlineReloadTimeSeconds od
  else
    let reloadFromCfg := getOnlineReloadTimeSecondsConfig od in
    if bool_decide (reloadFromCfg = -1)
    then Z.max (int_wrap (getReloadMinutesFromWhazzup m * 60)) 60
    else Z.max reloadFromCfg 60.

(** The local [source] of [startDownloadTimer], as it is logged. *)
Definition intervalSource (od : OptionData) : string :=
  let onlineNetwork := getOnlineNetwork od in
  if bool_decide (onlineNetwork = ONLINE_CUSTOM)
     || bool_decide (onlineNetwork = ONLINE_CUSTOM_STATUS)
  then "options"
  else if bool_decide (getOnlineReloadTimeSecondsConfig od = -1)
       then "whazzup" else "networks.cfg".

Definition startDownloadTimer (app : NavApp) (c : Controller) : Controller :=
  let c := timerStop c in
  let seconds := intervalSeconds (optionData app) (manager c) in
  let c := timerSetInterval (int_wrap (seconds * 1000)) c in
  timerStart c.

(** *** The download chain *)

Definition stopAllProcesses (c : Controller) : Controller :=
  let c := effect CancelDownload c in
  let c := timerStop c in
  let c := set_currentState NONE c in
  set_simulatorAiRegistrations ∅ c.

(** [OnlinedataController::getNetwork]; [tr] is the identity. *)
Definition getNetwork (od : OptionData) : string :=
  match getOnlineNetwork od with
  | ONLINE_NONE => EmptyString
  | ONLINE_VATSIM => "VATSIM"
  | ONLINE_IVAO => "IVAO"
  | ONLINE_CUSTOM_STATUS | ONLINE_CUSTOM => "Custom Network"
  end.

Definition startDownloadInternal (app : NavApp) (c : Controller) : Controller :=
  let c := stopAllProcesses c in
  let od := optionData app in
  let onlineNetwork := getOnlineNetwork od in
  if bool_decide (onlineNetwork = ONLINE_NONE) then c
  else
    let onlineStatusUrl := getOnlineStatusUrl od in
    let onlineWhazzupUrl := getOnlineWhazzupUrl od in
    let (whazzupUrlFromStatus, gzipped) :=
      getWhazzupUrlFromStatus (manager c) (whazzupGzipped c) in
    let c := set_whazzupGzipped gzipped c in
    if bool_decide (currentState c = NONE) then
      let c :=
        if negb (optionsNoUserAgent app)
        then effect (SetDefaultUserAgentShort (" Config/" +:+ getNetwork od)) c
        else c in
      let (url, c) :=
        if isEmpty whazzupUrlFromStatus && negb (isEmpty onlineStatusUrl)
        then (onlineStatusUrl, set_currentState DOWNLOADING_STATUS c)
        else if negb (isEmpty onlineWhazzupUrl)
                || negb (isEmpty whazzupUrlFromStatus)
        then (if isEmpty whazzupUrlFromStatus
              then onlineWhazzupUrl else whazzupUrlFromStatus,
              set_currentState DOWNLOADING_WHAZZUP c)
        else (EmptyString, c) in
      if negb (isEmpty url) then triggerDownload url c else c
    else c.

Definition startProcessing (app : NavApp) (c : Controller) : Controller :=
  startDownloadInternal app c.

(** The three lines that end every finished cycle: arm the timer, clear
    the stage, stamp the time. *)
Definition finishCycle (app : NavApp) (c : Controller) : Controller :=
  let c := startDownloadTimer app c in
  let c := set_currentState NONE c in
  let (now, c) := readClock c in
  set_lastUpdateTime now c.

(** The end of a cycle that brought new data (lines 243-252 and 272-281):
    [finishCycle], then both caches are cleared and the search tabs, the
    map and the information window are told. *)
Definition finalizeWithUpdate (app : NavApp) (c : Controller) : Controller :=
  let c := finishCycle app c in
  let c := aircraftCacheClear c in
  let c := set_simulatorAiRegistrations ∅ c in
  effect (Emit (onlineClientAndAtcUpdated true true)) c.

(** The head of the [DOWNLOADING_WHAZZUP] branch: unzip if the status file
    said so (a failed unzip is only logged), decode, and hand the text to
    the parser, which answers whether the payload is newer. *)
Definition readWhazzupPayload (data : list Byte.byte) (app : NavApp)
    (c : Controller) : OnlinedataManager * bool :=
  let whazzupData :=
    if whazzupGzipped c then snd (gzipDecompress data) else data in
  readFromWhazzup (manager c) (toUnicode whazzupData)
    (convertFormat (getOnlineFormat (optionData app)))
    (getLastUpdateTimeFromWhazzup (manager c)).

Definition downloadFinished (data : list Byte.byte) (url : string)
    (app : NavApp) (c : Controller) : Controller :=
  match currentState c with
  | DOWNLOADING_STATUS =>
      let c := set_manager (readFromStatus (manager c) (toUnicode data)) c in
      let (whazzupUrlFromStatus, gzipped) :=
        getWhazzupUrlFromStatus (manager c) (whazzupGzipped c) in
      let c := set_whazzupGzipped gzipped c in
      let c :=
        if negb (isEmpty (getMessageFromStatus (manager c)))
        then effect PostShowMessageDialog c else c in
      if negb (isEmpty whazzupUrlFromStatus) then
        let c := set_currentState DOWNLOADING_WHAZZUP c in
        triggerDownload whazzupUrlFromStatus c
      else finishCycle app c
  | DOWNLOADING_WHAZZUP =>
      let (m, accepted) := readWhazzupPayload data app c in
      let c := set_manager m c in
      if accepted then
        let whazzupVoiceUrlFromStatus :=
          getWhazzupVoiceUrlFromStatus (manager c) in
        let (fetchServers, c) :=
          if negb (isEmpty whazzupVoiceUrlFromStatus) then
            let (now, c) := readClock c in
            (bool_decide
               (lastServerDownload c
                < addSecs now (- MIN_SERVER_DOWNLOAD_INTERVAL_MIN * 60)), c)
          else (false, c) in
        if fetchServers then
          let c := set_currentState DOWNLOADING_WHAZZUP_SERVERS c in
          triggerDownload whazzupVoiceUrlFromStatus c
        else finalizeWithUpdate app c
      else finishCycle app c
  | DOWNLOADING_WHAZZUP_SERVERS =>
      let m :=
        readServersFromWhazzup (manager c) (toUnicode data)
          (convertFormat (getOnlineFormat (optionData app)))
          (getLastUpdateTimeFromWhazzup (manager c)) in
      let c := set_manager m c in
      let (now, c) := readClock c in
      let c := set_lastServerDownload now c in
      let c := finalizeWithUpdate app c in
      effect (Emit (onlineServersUpdated true true)) c
  | NONE => c
  end.

Definition downloadFailed (error url : string) (app : NavApp)
    (c : Controller) : Controller :=
  let c := stopAllProcesses c in
  let c := effect (WarningBox url error) c in
  startProcessing app c.

Definition optionsChanged (app : NavApp) (c : Controller) : Controller :=
  let c := set_manager (resetForNewOptions (manager c)) c in
  let c := stopAllProcesses c in
  let c := set_whazzupGzipped false c in
  let c := set_manager (clearData (manager c)) c in
  let c := aircraftCacheClear c in
  let c := set_simulatorAiRegistrations ∅ c in
  let c := effect (Emit (onlineClientAndAtcUpdated true true)) c in
  let c := effect (Emit (onlineServersUpdated true true)) c in
  let c := effect (Emit onlineNetworkChanged) c in
  let c := set_lastUpdateTime (fromSecsSinceEpoch 0) c in
  let c := set_lastServerDownload (fromSecsSinceEpoch 0) c in
  startDownloadInternal app c.

(** *** Spatial queries *)

Definition queryRectInflationFactor : Q := 2 # 10.
Definition queryRectInflationIncrement : Q := 1 # 10.
Definition queryMaxRows : Z := 5000.

(** [static const int MIN_DISTANCE_DUPLICATE = atools::geo::nmToMeter(30)] *)
Definition MIN_DISTANCE_DUPLICATE : Z := nmToMeter 30.

(** [QHash::keys] of a table of registrations: the keys in the iteration
    order of the hash table.  Two tables with the same key set need not
    list their keys in the same order. *)
Definition keys (regs : gmap string Pos) : list string :=
  hashKeys regs.

(** [QHash::contains] *)
Definition contains (regs : gmap string Pos) (key : string) : bool :=
  bool_decide (is_Some (regs !! key)).

(** [QHash::value]: a default constructed value for a missing key. *)
Definition value (regs : gmap string Pos) (key : string) : Pos :=
  default Pos_default (regs !! key).

(** The local [curRegistrations] of [getAircraft]: the user aircraft, then
    the AI aircraft if there is a connection, without the empty key. *)
Definition curRegistrationsOf (app : NavApp) : gmap string Pos :=
  let userAircraft := getUserAircraft app in
  let regs : gmap string Pos :=
    <[getAirplaneRegistration userAircraft := getPosition userAircraft]> ∅ in
  let regs :=
    if isConnected app || userAircraftIsDebug app
    then foldl (fun (m : gmap string Pos) aircraft =>
                  <[getAirplaneRegistration aircraft := getPosition aircraft]> m)
               regs (getAiAircraft app)
    else regs in
  delete EmptyString regs.

(** The condition in front of [aircraftCache.list.append(aircraft)]. *)
Definition notDuplicate (curRegistrations : gmap string Pos)
    (aircraft : SimConnectAircraft) : bool :=
  negb (contains curRegistrations (getAirplaneRegistration aircraft))
  || Qgt_bool
       (distanceMeterTo (getPosition aircraft)
          (value curRegistrations (getAirplaneRegistration aircraft)))
       (inject_Z MIN_DISTANCE_DUPLICATE).

(** The loop [while(aircraftByRectQuery->next())] over the rows of one
    executed query. *)
Fixpoint appendClients (curRegistrations : gmap string Pos)
    (rows : list SqlRecord) (l : list SimConnectAircraft)
    : list SimConnectAircraft :=
  match rows with
  | [] => l
  | record :: rest =>
      let aircraft := fillFromClient record in
      if notDuplicate curRegistrations aircraft
      then appendClients curRegistrations rest (l ++ [aircraft])
      else appendClients curRegistrations rest l
  end.

(** The loop over the rectangles of [query::splitAtAntiMeridian].  Binding
    and executing dereference [aircraftByRectQuery]: there is no result if
    the query was never prepared. *)
Fixpoint queryRects (curRegistrations : gmap string Pos)
    (rects : list GeoDataLatLonBox) (c : Controller) : option Controller :=
  match rects with
  | [] => Some c
  | r :: rest =>
      if aircraftByRectQuery c then
        let c := effect (QueryExec r) c in
        let rows := selectClientsInRect (manager c) r in
        let c :=
          set_aircraftCache
            (cache_setList
               (appendClients curRegistrations rows
                  (cacheList (aircraftCache c)))
               (aircraftCache c)) c in
        queryRects curRegistrations rest c
      else None
  end.

(** The head of [getAircraft] (lines 378-399): [updateCache], then the
    comparison of the remembered registrations with the current ones. *)
Definition invalidateCache (rect : GeoDataLatLonBox) (mapLayer : MapLayer)
    (lazy : bool) (app : NavApp) (c : Controller) : Controller :=
  let c :=
    set_aircraftCache
      (updateCache rect mapLayer queryRectInflationFactor
         queryRectInflationIncrement lazy
         (fun curLayer newLayer =>
            hasSameQueryParametersWaypoint curLayer newLayer)
         (aircraftCache c)) c in
  let curRegistrations := curRegistrationsOf app in
  if bool_decide (keys (simulatorAiRegistrations c) ≠ keys curRegistrations)
  then aircraftCacheClear c else c.

Definition getAircraft (rect : GeoDataLatLonBox) (mapLayer : MapLayer)
    (lazy : bool) (app : NavApp) (c : Controller)
    : option (list SimConnectAircraft * Controller) :=
  let c := invalidateCache rect mapLayer lazy app c in
  let curRegistrations := curRegistrationsOf app in
  let rebuilt :=
    if bool_decide (cacheList (aircraftCache c) = []) && negb lazy then
      match
        queryRects curRegistrations
          (splitAtAntiMeridian rect queryRectInflationFactor
             queryRectInflationIncrement) c
      with
      | Some c => Some (set_simulatorAiRegistrations curRegistrations c)
      | None => None
      end
    else Some c in
  match rebuilt with
  | Some c =>
      let c := set_aircraftCache (validate queryMaxRows (aircraftCache c)) c in
      Some (cacheList (aircraftCache c), c)
  | None => None
  end.

Definition getAircraftFromCache (c : Controller) : list SimConnectAircraft :=
  cacheList (aircraftCache c).

Definition deInitQueries (c : Controller) : Controller :=
  let c := aircraftCacheClear c in
  let c := set_manager (managerDeInitQueries (manager c)) c in
  set_aircraftByRectQuery false c.

Definition initQueries (c : Controller) : Controller :=
  let c := deInitQueries c in
  let c := set_manager (managerInitQueries (manager c)) c in
  set_aircraftByRectQuery true c.

(** [OnlinedataController::isNetworkActive] *)
Definition isNetworkActive (od : OptionData) : bool :=
  bool_decide (getOnlineNetwork od <> ONLINE_NONE).

(** *** Entry points

    The slots the constructor connects (lines 73-77: the two signals of the
    downloader and the timeout of [downloadTimer], which goes to
    [startDownloadInternal]) and the public member functions that change
    the controller. *)
Inductive Call :=
| CallDownloadFinished (data : list Byte.byte) (url : string)
| CallDownloadFailed (error url : string)
| CallTimerTimeout
| CallStartProcessing
| CallOptionsChanged
| CallInitQueries
| CallDeInitQueries.

Definition perform (app : NavApp) (call : Call) (c : Controller) : Controller :=
  match call with
  | CallDownloadFinished data url => downloadFinished data url app c
  | CallDownloadFailed error url => downloadFailed error url app c
  | CallTimerTimeout => startDownloadInternal app c
  | CallStartProcessing => startProcessing app c
  | CallOptionsChanged => optionsChanged app c
  | CallInitQueries => initQueries c
  | CallDeInitQueries => deInitQueries c
  end.

(** A sequence of calls, each with the application data it finds. *)
Fixpoint run (calls : list (NavApp * Call)) (c : Controller) : Controller :=
  match calls with
  | [] => c
  | (app, call) :: rest => run rest (perform app call c)
  end.

(** The recurring timer runs only between two download chains. *)
Definition timerExcludesDownload (c : Controller) : Prop :=
  timerActive c = true -> currentState c = NONE.

(** The aircraft whose registrations [getAircraft] inserts into
    [curRegistrations], in the order of insertion. *)
Definition registrationSources (app : NavApp) : list SimConnectAircraft :=
  getUserAircraft app
  :: (if isConnected app || userAircraftIsDebug app
      then getAiAircraft app else []).

(** The last aircraft of a list with a given registration. *)
Definition lastWithRegistration (key : string)
    (l : list SimConnectAircraft) : option SimConnectAircraft :=
  List.find (fun a => bool_decide (getAirplaneRegistration a = key)) (rev l).
End Controller.

(** ** A small concrete world

    Positions are metres along a line, rectangles are intervals, the
    manager keeps the client table as a list, the status text is the
    whazzup URL and the timestamp of a whazzup payload is its length.  The
    clock shows 900000 ms (15 minutes after the epoch) at its first reading
    and advances by one millisecond per reading. *)
Module Sample.

Definition geo : GeoApi := {|
  Pos := Z;
  Pos_default := 0;
  distanceMeterTo := fun a b => inject_Z (Z.abs (a - b));
  nmToMeter := fun nm => nm * 1852;
  GeoDataLatLonBox := Z * Z;
  MapLayer := Z;
  hasSameQueryParametersWaypoint := Z.eqb;
  splitAtAntiMeridian := fun r _ _ =>
    if fst r <=? snd r then [r] else [(fst r, 180); (-180, snd r)];
  inflatedContains := fun cur _ _ r => (fst cur <=? fst r) && (snd r <=? snd cur)
|}.

Record ManagerState := {
  statusWhazzupUrl : string;
  statusGzipped : bool;
  statusMessage : string;
  statusVoiceUrl : string;
  whazzupTime : Z;
  reloadMinutes : Z;
  clients : list (Z * string * Z)
}.

Definition withWhazzupTime (t : Z) (m : ManagerState) : ManagerState :=
  {| statusWhazzupUrl := statusWhazzupUrl m; statusGzipped := statusGzipped m;
     statusMessage := statusMessage m; statusVoiceUrl := statusVoiceUrl m;
     whazzupTime := t; reloadMinutes := reloadMinutes m;
     clients := clients m |}.

Definition withWhazzupUrl (u : string) (m : ManagerState) : ManagerState :=
  {| statusWhazzupUrl := u; statusGzipped := statusGzipped m;
     statusMessage := statusMessage m; statusVoiceUrl := statusVoiceUrl m;
     whazzupTime := whazzupTime m; reloadMinutes := reloadMinutes m;
     clients := clients m |}.

Definition withClients (l : list (Z * string * Z)) (m : ManagerState)
    : ManagerState :=
  {| statusWhazzupUrl := statusWhazzupUrl m; statusGzipped := statusGzipped m;
     statusMessage := statusMessage m; statusVoiceUrl := statusVoiceUrl m;
     whazzupTime := whazzupTime m; reloadMinutes := reloadMinutes m;
     clients := l |}.

Definition inRect (r : Z * Z) (row : Z * string * Z) : bool :=
  (fst r <=? snd row) && (snd row <=? snd r).

Definition rowAircraft (row : Z * string * Z) : @SimConnectAircraft geo :=
  @Build_SimConnectAircraft geo (fst (fst row)) (snd (fst row)) (snd row).

Definition parseWhazzup (m : ManagerState) (text : string) (_ : Format)
    (last : QDateTime) : ManagerState * bool :=
  let stamp := Z.of_nat (String.length text) in
  if last <? stamp then (withWhazzupTime stamp m, true) else (m, false).

Definition mgr : @ManagerApi geo :=
  @Build_ManagerApi geo ManagerState (Z * string * Z)
    (fun m text => withWhazzupUrl text m)
    (fun m _ => (statusWhazzupUrl m, statusGzipped m))
    statusMessage
    parseWhazzup
    whazzupTime
    statusVoiceUrl
    (fun m _ _ _ => m)
    reloadMinutes
    (fun m => withWhazzupUrl EmptyString m)
    (fun m => withClients [] m)
    (fun m => m)
    (fun m => m)
    (fun m r => List.filter (inRect r) (clients m))
    rowAircraft.

(** The keys of a table in the order of the keys themselves. *)
Definition sortedKeys (m : gmap string Z) : list string :=
  (map_to_list m).*1.

Definition sortedKeys_spec (m : gmap string Z) (k : string) :
  k ∈ sortedKeys m <-> is_Some (m !! k).
Proof.
  unfold sortedKeys.
  rewrite <- elem_of_dom, dom_alt, elem_of_list_to_set. reflexivity.
Qed.

Definition plat : @PlatformApi geo :=
  @Build_PlatformApi geo String.string_of_list_byte
    (fun data => (true, data)) (fun n => 900000 + Z.of_nat n)
    sortedKeys sortedKeys_spec.

(** Another layout of the hash tables: a table that holds the user
    aircraft N12345 at a position below 100 m lists its keys backwards. *)
Definition shuffledKeys (m : gmap string Z) : list string :=
  match m !! "N12345" with
  | Some pos => if pos <? 100 then reverse (sortedKeys m) else sortedKeys m
  | None => sortedKeys m
  end.

Definition shuffledKeys_spec (m : gmap string Z) (k : string) :
  k ∈ shuffledKeys m <-> is_Some (m !! k).
Proof.
  unfold shuffledKeys.
  destruct (m !! "N12345") as [pos|]; [destruct (pos <? 100)|];
    rewrite ?elem_of_reverse; apply sortedKeys_spec.
Qed.

Definition platShuffled : @PlatformApi geo :=
  @Build_PlatformApi geo String.string_of_list_byte
    (fun data => (true, data)) (fun n => 900000 + Z.of_nat n)
    shuffledKeys shuffledKeys_spec.

Definition aircraft (id : Z) (registration : string) (pos : Z)
    : @SimConnectAircraft geo :=
  @Build_SimConnectAircraft geo id registration pos.

Definition options (network : OnlineNetwork) (reload reloadCfg : Z)
    : OptionData :=
  {| getOnlineNetwork := network;
     getOnlineStatusUrl := "http://status";
     getOnlineWhazzupUrl := "http://whazzup";
     getOnlineFormat := ONLINE_FORMAT_VATSIM;
     getOnlineReloadTimeSeconds := reload;
     getOnlineReloadTimeSecondsConfig := reloadCfg |}.

(** The simulator flies N12345 at 1000 m and is connected with one AI
    aircraft at 200000 m. *)
Definition app (od : OptionData) : @NavApp geo :=
  @Build_NavApp geo od false (aircraft 1 "N12345" 1000) false true
    [aircraft 2 "D-EABC" 200000].

Definition managerState (voiceUrl : string) (minutes : Z) : ManagerState :=
  {| statusWhazzupUrl := "http://whazzup.gz";
     statusGzipped := true;
     statusMessage := EmptyString;
     statusVoiceUrl := voiceUrl;
     whazzupTime := 0;
     reloadMinutes := minutes;
     clients := [(10, "N12345", 2000); (11, "N12345", 90000);
                 (12, "G-ABCD", 3000); (13, EmptyString, 1000)] |}.

(** A controller in stage [st] whose cache holds [cached] and whose
    remembered registrations are [regs]. *)
Definition controller (st : State) (m : ManagerState) (lastServer : Z)
    (cached : list (@SimConnectAircraft geo)) (regs : gmap string Z)
    (prepared : bool) : @Controller geo mgr :=
  @Build_Controller geo mgr m st true 0 lastServer
    (@Build_SimpleRectCache geo (Some (0, 100000)) (Some 7) cached)
    regs prepared false 0 0%nat [].

Definition rect (west east : Z) : @GeoDataLatLonBox geo := (west, east).

Definition layer (n : Z) : @MapLayer geo := n.

End Sample.

(** * Properties *)

(** ** Helper facts *)

Lemma int_wrap_in_range (z : Z) : int_range z -> int_wrap z = z.
Proof.
  unfold int_range, int_wrap. intros Hz.
  rewrite Z.mod_small by lia. lia.
Qed.

Lemma Qgt_bool_true (a b : Q) : Qgt_bool a b = true <-> (b < a)%Q.
Proof.
  unfold Qgt_bool. rewrite negb_true_iff.
  split.
  - intros Hle. apply Qnot_le_lt. intros Hab.
    apply Qle_bool_iff in Hab. congruence.
  - intros Hlt. destruct (Qle_bool a b) eqn:Hle; [|reflexivity].
    apply Qle_bool_iff in Hle. exfalso. exact (Qlt_not_le _ _ Hlt Hle).
Qed.

Lemma isEmpty_true (s : string) : isEmpty s = true <-> s = EmptyString.
Proof. destruct s; simpl; split; congruence. Qed.

Section TraceFacts.
Context {geo : GeoApi}.

Lemma signalsOf_app (es fs : list Effect) :
  signalsOf (es ++ fs) = signalsOf es ++ signalsOf fs.
Proof.
  induction es as [|e es IH]; [reflexivity|].
  destruct e; simpl; rewrite IH; reflexivity.
Qed.

Lemma queriesOf_app (es fs : list Effect) :
  queriesOf (es ++ fs) = queriesOf es ++ queriesOf fs.
Proof.
  induction es as [|e es IH]; [reflexivity|].
  destruct e; simpl; rewrite IH; reflexivity.
Qed.

Lemma queriesOf_QueryExec (rects : list GeoDataLatLonBox) :
  queriesOf (QueryExec <$> rects) = rects.
Proof.
  induction rects as [|r rest IH]; [reflexivity|].
  cbn. rewrite IH. reflexivity.
Qed.
End TraceFacts.

(** ** The download chain *)

Section ChainProperties.
Context {geo : GeoApi} {mgr : ManagerApi} {plat : PlatformApi}.

(** What [finishCycle] leaves behind, member by member. *)
Lemma finishCycle_spec (app : NavApp) (c : Controller) :
  let msec := int_wrap (intervalSeconds (optionData app) (manager c) * 1000) in
  finishCycle app c =
    {| manager := manager c; currentState := NONE;
       whazzupGzipped := whazzupGzipped c;
       lastUpdateTime := currentDateTime (clockReads c);
       lastServerDownload := lastServerDownload c;
       aircraftCache := aircraftCache c;
       simulatorAiRegistrations := simulatorAiRegistrations c;
       aircraftByRectQuery := aircraftByRectQuery c;
       timerActive := true; timerInterval := msec;
       clockReads := S (clockReads c);
       effects := (effects c ++ [TimerStop]) ++ [TimerStart msec] |}.
Proof. reflexivity. Qed.

(** C3: the interval of the timer-arming routine follows the precedence
    custom network (configured seconds as they are, no floor), then the
    whazzup advice with a floor of 60 seconds when the override of the
    configuration file is -1, then the override with the same floor.  The
    routine always leaves the timer running with that interval in
    milliseconds.  The product minutes * 60 is an [int] in the source, the
    second case is stated where it does not overflow. *)
Theorem startDownloadTimer_interval_precedence (app : NavApp) (c : Controller) :
  let od := optionData app in
  let seconds := intervalSeconds od (manager c) in
  let custom :=
    getOnlineNetwork od = ONLINE_CUSTOM
    \/ getOnlineNetwork od = ONLINE_CUSTOM_STATUS in
  let minutes := getReloadMinutesFromWhazzup (manager c) in
  timerActive (startDownloadTimer app c) = true
  /\ timerInterval (startDownloadTimer app c) = int_wrap (seconds * 1000)
  /\ (custom -> seconds = getOnlineReloadTimeSeconds od)
  /\ (~ custom -> getOnlineReloadTimeSecondsConfig od = -1 ->
      int_range (minutes * 60) -> seconds = Z.max (minutes * 60) 60)
  /\ (~ custom -> getOnlineReloadTimeSecondsConfig od <> -1 ->
      seconds = Z.max (getOnlineReloadTimeSecondsConfig od) 60).
Proof.
  intros od seconds custom minutes.
  split; [reflexivity|]. split; [reflexivity|].
  subst seconds custom minutes. unfold intervalSeconds.
  repeat split.
  - intros [Hc|Hc]; rewrite Hc; reflexivity.
  - intros Hn Hcfg Hr.
    rewrite !bool_decide_eq_false_2 by tauto.
    rewrite bool_decide_eq_true_2 by assumption.
    simpl. rewrite int_wrap_in_range by assumption. reflexivity.
  - intros Hn Hcfg.
    rewrite !bool_decide_eq_false_2 by tauto.
    reflexivity.
Qed.

(** The whazzup stage, once the parser has answered. *)
Lemma downloadFinished_whazzup (data : list Byte.byte) (url : string)
    (app : NavApp) (c : Controller) (m : OnlinedataManager) (accepted : bool) :
  currentState c = DOWNLOADING_WHAZZUP ->
  readWhazzupPayload data app c = (m, accepted) ->
  downloadFinished data url app c =
    let c1 := set_manager m c in
    if accepted then
      let voice := getWhazzupVoiceUrlFromStatus m in
      if isEmpty voice then finalizeWithUpdate app c1
      else
        if bool_decide
             (lastServerDownload c
              < addSecs (currentDateTime (clockReads c))
                  (- MIN_SERVER_DOWNLOAD_INTERVAL_MIN * 60))
        then triggerDownload voice
               (set_currentState DOWNLOADING_WHAZZUP_SERVERS
                  (set_clockReads (S (clockReads c)) c1))
        else finalizeWithUpdate app (set_clockReads (S (clockReads c)) c1)
    else finishCycle app c1.
Proof.
  intros Hst Hparse. unfold downloadFinished. rewrite Hst, Hparse.
  destruct accepted; [|reflexivity].
  cbn [set_manager manager].
  destruct (isEmpty (getWhazzupVoiceUrlFromStatus m)); cbn [negb];
    [reflexivity|].
  unfold readClock. cbn [set_manager set_clockReads lastServerDownload clockReads].
  case_bool_decide; reflexivity.
Qed.

(** C1: a whazzup payload that the parser accepts as newer, with no voice
    URL in the status data: the aircraft cache and the remembered
    registrations are cleared, the only signal is one
    onlineClientAndAtcUpdated(true, true) (no onlineServersUpdated), the
    stage is NONE again, the time of the last update is the clock reading
    of this call and the timer runs with the interval of the policy. *)
Theorem whazzup_accepted_without_voice_url (data : list Byte.byte)
    (url : string) (app : NavApp) (c : Controller) (m : OnlinedataManager) :
  currentState c = DOWNLOADING_WHAZZUP ->
  readWhazzupPayload data app c = (m, true) ->
  isEmpty (getWhazzupVoiceUrlFromStatus m) = true ->
  let c' := downloadFinished data url app c in
  let msec := int_wrap (intervalSeconds (optionData app) m * 1000) in
  cacheList (aircraftCache c') = []
  /\ simulatorAiRegistrations c' = ∅
  /\ effects c' =
       effects c ++ [TimerStop; TimerStart msec;
                     Emit (onlineClientAndAtcUpdated true true)]
  /\ signalsOf (effects c') =
       signalsOf (effects c) ++ [onlineClientAndAtcUpdated true true]
  /\ currentState c' = NONE
  /\ lastUpdateTime c' = currentDateTime (clockReads c)
  /\ timerActive c' = true
  /\ timerInterval c' = msec.
Proof.
  intros Hst Hparse Hvoice c' msec. subst c'.
  rewrite (downloadFinished_whazzup data url app c m true Hst Hparse).
  cbn zeta. rewrite Hvoice.
  unfold finalizeWithUpdate. cbn zeta. rewrite finishCycle_spec.
  cbn -[int_wrap intervalSeconds].
  rewrite <- !app_assoc. cbn [List.app].
  repeat split; try reflexivity.
  rewrite signalsOf_app. reflexivity.
Qed.

(** C4: a whazzup payload that the parser rejects as not newer: no signal
    is emitted, the aircraft cache and the remembered registrations stay
    as they are, and the cycle still ends: timer running with the interval
    of the policy, stage NONE, time of the last update stamped. *)
Theorem whazzup_rejected_finishes_silently (data : list Byte.byte)
    (url : string) (app : NavApp) (c : Controller) (m : OnlinedataManager) :
  currentState c = DOWNLOADING_WHAZZUP ->
  readWhazzupPayload data app c = (m, false) ->
  let c' := downloadFinished data url app c in
  let msec := int_wrap (intervalSeconds (optionData app) m * 1000) in
  signalsOf (effects c') = signalsOf (effects c)
  /\ effects c' = effects c ++ [TimerStop; TimerStart msec]
  /\ aircraftCache c' = aircraftCache c
  /\ simulatorAiRegistrations c' = simulatorAiRegistrations c
  /\ timerActive c' = true
  /\ timerInterval c' = msec
  /\ currentState c' = NONE
  /\ lastUpdateTime c' = currentDateTime (clockReads c).
Proof.
  intros Hst Hparse c' msec. subst c'.
  rewrite (downloadFinished_whazzup data url app c m false Hst Hparse).
  cbn zeta. rewrite finishCycle_spec.
  cbn -[int_wrap intervalSeconds].
  rewrite <- !app_assoc. cbn [List.app].
  repeat split; try reflexivity.
  rewrite signalsOf_app. cbn. apply app_nil_r.
Qed.

(** C2 (amended): a whazzup payload accepted as newer, with a voice URL in
    the status data.  If strictly more than 15 minutes lie between the last
    server download and the clock reading, the stage becomes
    DOWNLOADING_WHAZZUP_SERVERS and the download of the voice URL is
    triggered, nothing else happens.  If 15 minutes or less have passed
    (exactly 15 minutes included), the stage does not become
    DOWNLOADING_WHAZZUP_SERVERS and the cycle ends as without a voice URL:
    caches cleared, one onlineClientAndAtcUpdated(true, true), stage NONE,
    time stamped with the next clock reading, timer running. *)
Theorem whazzup_accepted_with_voice_url (data : list Byte.byte)
    (url : string) (app : NavApp) (c : Controller) (m : OnlinedataManager) :
  currentState c = DOWNLOADING_WHAZZUP ->
  readWhazzupPayload data app c = (m, true) ->
  isEmpty (getWhazzupVoiceUrlFromStatus m) = false ->
  let c' := downloadFinished data url app c in
  let voice := getWhazzupVoiceUrlFromStatus m in
  let elapsed := currentDateTime (clockReads c) - lastServerDownload c in
  let msec := int_wrap (intervalSeconds (optionData app) m * 1000) in
  (MIN_SERVER_DOWNLOAD_INTERVAL_MIN * 60 * 1000 < elapsed ->
     currentState c' = DOWNLOADING_WHAZZUP_SERVERS
     /\ effects c' = effects c ++ [SetUrl voice; PostStartDownload]
     /\ aircraftCache c' = aircraftCache c
     /\ simulatorAiRegistrations c' = simulatorAiRegistrations c
     /\ timerActive c' = timerActive c
     /\ lastUpdateTime c' = lastUpdateTime c)
  /\ (elapsed <= MIN_SERVER_DOWNLOAD_INTERVAL_MIN * 60 * 1000 ->
     currentState c' <> DOWNLOADING_WHAZZUP_SERVERS
     /\ c' = finalizeWithUpdate app
               (set_clockReads (S (clockReads c)) (set_manager m c))
     /\ cacheList (aircraftCache c') = []
     /\ simulatorAiRegistrations c' = ∅
     /\ effects c' =
          effects c ++ [TimerStop; TimerStart msec;
                        Emit (onlineClientAndAtcUpdated true true)]
     /\ currentState c' = NONE
     /\ lastUpdateTime c' = currentDateTime (S (clockReads c))
     /\ timerActive c' = true
     /\ timerInterval c' = msec).
Proof.
  intros Hst Hparse Hvoice c' voice elapsed msec. subst c' voice elapsed.
  rewrite (downloadFinished_whazzup data url app c m true Hst Hparse).
  cbn zeta. rewrite Hvoice.
  unfold addSecs, MIN_SERVER_DOWNLOAD_INTERVAL_MIN.
  split; intros Helapsed.
  - rewrite bool_decide_eq_true_2 by lia.
    cbn. rewrite <- !app_assoc. repeat split; reflexivity.
  - rewrite bool_decide_eq_false_2 by lia.
    unfold finalizeWithUpdate. cbn zeta. rewrite finishCycle_spec.
    cbn -[int_wrap intervalSeconds].
    rewrite <- !app_assoc. cbn [List.app].
    repeat split; try reflexivity. discriminate.
Qed.

(** What [stopAllProcesses] leaves behind, member by member. *)
Lemma stopAllProcesses_spec (c : Controller) :
  stopAllProcesses c =
    {| manager := manager c; currentState := NONE;
       whazzupGzipped := whazzupGzipped c;
       lastUpdateTime := lastUpdateTime c;
       lastServerDownload := lastServerDownload c;
       aircraftCache := aircraftCache c;
       simulatorAiRegistrations := ∅;
       aircraftByRectQuery := aircraftByRectQuery c;
       timerActive := false; timerInterval := timerInterval c;
       clockReads := clockReads c;
       effects := (effects c ++ [CancelDownload]) ++ [TimerStop] |}.
Proof. reflexivity. Qed.

(** [startDownloadInternal] changes neither the cache nor the timer state
    that [stopAllProcesses] left, and only adds download effects. *)
Lemma startDownloadInternal_frame (app : NavApp) (c : Controller) :
  let c' := startDownloadInternal app c in
  aircraftCache c' = aircraftCache c
  /\ simulatorAiRegistrations c' = ∅
  /\ timerActive c' = false
  /\ exists tail,
       effects c' = effects c ++ [CancelDownload; TimerStop] ++ tail
       /\ Forall (fun e => match e with
                           | SetDefaultUserAgentShort _ | SetUrl _
                           | PostStartDownload => True
                           | _ => False
                           end) tail.
Proof.
  unfold startDownloadInternal. rewrite stopAllProcesses_spec.
  cbn [manager whazzupGzipped currentState].
  destruct (bool_decide (getOnlineNetwork (optionData app) = ONLINE_NONE)).
  { cbn. repeat split; try reflexivity. exists [].
    rewrite <- !app_assoc. split; [reflexivity|constructor]. }
  destruct (getWhazzupUrlFromStatus (manager c) (whazzupGzipped c))
    as [fromStatus gz].
  cbn [set_whazzupGzipped currentState]. rewrite bool_decide_eq_true_2 by reflexivity.
  destruct (optionsNoUserAgent app), (isEmpty fromStatus),
    (isEmpty (getOnlineStatusUrl (optionData app))) eqn:Hs,
    (isEmpty (getOnlineWhazzupUrl (optionData app))) eqn:Hw;
    cbn; rewrite ?Hs, ?Hw; cbn;
    try (destruct fromStatus; cbn);
    rewrite <- ?app_assoc; cbn [List.app];
    (repeat split; try reflexivity);
    eexists; (split; [reflexivity|]); repeat constructor.
Qed.

(** With a network selected and some URL at hand, [startDownloadInternal]
    enters a download stage and posts the download as its last effect. *)
Lemma startDownloadInternal_starts (app : NavApp) (c : Controller) :
  let od := optionData app in
  let c' := startDownloadInternal app c in
  getOnlineNetwork od <> ONLINE_NONE ->
  (isEmpty (getOnlineStatusUrl od) = false
   \/ isEmpty (getOnlineWhazzupUrl od) = false
   \/ isEmpty (fst (getWhazzupUrlFromStatus (manager c) (whazzupGzipped c)))
      = false) ->
  currentState c' <> NONE
  /\ exists es u,
       isEmpty u = false /\ effects c' = es ++ [SetUrl u; PostStartDownload].
Proof.
  intros od c' Hnet Hurl. subst od c'.
  unfold startDownloadInternal. rewrite stopAllProcesses_spec.
  cbn [manager whazzupGzipped currentState].
  rewrite bool_decide_eq_false_2 by assumption.
  destruct (getWhazzupUrlFromStatus (manager c) (whazzupGzipped c))
    as [fromStatus gz].
  cbn [fst] in Hurl.
  cbn [set_whazzupGzipped currentState].
  rewrite bool_decide_eq_true_2 by reflexivity.
  assert (Hpost : forall (u : string) (st : State) (d : Controller),
             isEmpty u = false -> st <> NONE ->
             currentState (triggerDownload u (set_currentState st d)) <> NONE
             /\ exists es u',
                  isEmpty u' = false
                  /\ effects (triggerDownload u (set_currentState st d))
                     = es ++ [SetUrl u'; PostStartDownload]).
  { intros u st d Hu Hne. split; [exact Hne|].
    exists (effects d), u. split; [exact Hu|].
    cbn. rewrite <- app_assoc. reflexivity. }
  destruct (isEmpty fromStatus) eqn:Hf,
    (isEmpty (getOnlineStatusUrl (optionData app))) eqn:Hs,
    (isEmpty (getOnlineWhazzupUrl (optionData app))) eqn:Hw;
    cbn [andb orb negb]; rewrite ?Hf, ?Hs, ?Hw; cbn [negb];
    try (apply Hpost; [assumption|discriminate]).
  destruct Hurl as [Hu|[Hu|Hu]]; discriminate.
Qed.

(** C8: a failed download stops everything first (download cancelled, timer
    stopped, stage NONE, remembered registrations cleared), then shows the
    blocking warning with the URL and the error, and then restarts the chain
    at once through [startProcessing]: no timer is armed in between or
    afterwards, the only effects after the warning are those of the restart
    itself, and with a network selected and a URL configured the restart
    posts a download and enters a download stage. *)
Theorem downloadFailed_stops_warns_restarts (error url : string)
    (app : NavApp) (c : Controller) :
  let stopped := stopAllProcesses c in
  let c' := downloadFailed error url app c in
  currentState stopped = NONE
  /\ timerActive stopped = false
  /\ simulatorAiRegistrations stopped = ∅
  /\ effects stopped = effects c ++ [CancelDownload; TimerStop]
  /\ c' = startProcessing app (effect (WarningBox url error) stopped)
  /\ timerActive c' = false
  /\ simulatorAiRegistrations c' = ∅
  /\ (exists tail,
       effects c' =
         effects c ++ [CancelDownload; TimerStop; WarningBox url error;
                       CancelDownload; TimerStop] ++ tail
       /\ Forall (fun e => match e with
                           | SetDefaultUserAgentShort _ | SetUrl _
                           | PostStartDownload => True
                           | _ => False
                           end) tail)
  /\ (getOnlineNetwork (optionData app) <> ONLINE_NONE ->
      isEmpty (getOnlineStatusUrl (optionData app)) = false
      \/ isEmpty (getOnlineWhazzupUrl (optionData app)) = false ->
      currentState c' <> NONE
      /\ exists es u,
           isEmpty u = false
           /\ effects c' = es ++ [SetUrl u; PostStartDownload]).
Proof.
  intros stopped c'. subst stopped c'.
  do 3 (split; [reflexivity|]).
  split.
  { rewrite stopAllProcesses_spec. cbn [effects].
    rewrite <- app_assoc. reflexivity. }
  split; [reflexivity|].
  unfold downloadFailed, startProcessing. cbn zeta.
  destruct (startDownloadInternal_frame app
              (effect (WarningBox url error) (stopAllProcesses c)))
    as (_ & Hregs & Htimer & tail & Heff & Htail).
  split; [exact Htimer|]. split; [exact Hregs|].
  split.
  - exists tail. split; [|exact Htail].
    rewrite Heff. rewrite stopAllProcesses_spec. cbn [effect effects].
    rewrite <- !app_assoc. reflexivity.
  - intros Hnet Hurl.
    apply (startDownloadInternal_starts app
             (effect (WarningBox url error) (stopAllProcesses c)) Hnet).
    tauto.
Qed.

(** C10: [stopAllProcesses] leaves the aircraft cache, its record list
    included, as it is, and so does the whole failure path
    [downloadFailed], which calls it twice. *)
Theorem stopAllProcesses_keeps_aircraft_cache (error url : string)
    (app : NavApp) (c : Controller) :
  aircraftCache (stopAllProcesses c) = aircraftCache c
  /\ cacheList (aircraftCache (stopAllProcesses c))
     = cacheList (aircraftCache c)
  /\ aircraftCache (downloadFailed error url app c) = aircraftCache c
  /\ cacheList (aircraftCache (downloadFailed error url app c))
     = cacheList (aircraftCache c).
Proof.
  assert (Hfail : aircraftCache (downloadFailed error url app c)
                  = aircraftCache c).
  { unfold downloadFailed, startProcessing. cbn zeta.
    destruct (startDownloadInternal_frame app
                (effect (WarningBox url error) (stopAllProcesses c)))
      as (Hcache & _).
    rewrite Hcache. reflexivity. }
  repeat split; try reflexivity; rewrite Hfail; reflexivity.
Qed.
End ChainProperties.

(** ** Spatial queries *)

Section SpatialProperties.
Context {geo : GeoApi} {mgr : ManagerApi} {plat : PlatformApi}.

(** Equal key lists come from equal key sets; the converse does not hold,
    the order of a key list is that of its hash table. *)
Lemma keys_eq_dom (a b : gmap string Pos) : keys a = keys b -> dom a = dom b.
Proof.
  unfold keys. intros Hk. apply set_eq. intros k.
  rewrite !elem_of_dom, <- !hashKeys_spec, Hk. reflexivity.
Qed.

(** The row loop keeps the rows that pass the test, in their order. *)
Lemma appendClients_filter (cur : gmap string Pos) (rows : list SqlRecord)
    (l : list SimConnectAircraft) :
  appendClients cur rows l
  = l ++ List.filter (notDuplicate cur) (fillFromClient <$> rows).
Proof.
  revert l. induction rows as [|record rest IH]; intros l; simpl.
  - symmetry. apply app_nil_r.
  - destruct (notDuplicate cur (fillFromClient record)).
    + rewrite IH, <- app_assoc. reflexivity.
    + apply IH.
Qed.

(** The rectangle loop with a prepared query: one executed query per
    rectangle, the kept rows of all of them appended, nothing else
    touched. *)
Lemma queryRects_prepared (cur : gmap string Pos)
    (rects : list GeoDataLatLonBox) (c : Controller) :
  aircraftByRectQuery c = true ->
  queryRects cur rects c =
    Some
      {| manager := manager c; currentState := currentState c;
         whazzupGzipped := whazzupGzipped c;
         lastUpdateTime := lastUpdateTime c;
         lastServerDownload := lastServerDownload c;
         aircraftCache :=
           cache_setList
             (cacheList (aircraftCache c)
              ++ List.filter (notDuplicate cur)
                   (fillFromClient
                      <$> concat (selectClientsInRect (manager c) <$> rects)))
             (aircraftCache c);
         simulatorAiRegistrations := simulatorAiRegistrations c;
         aircraftByRectQuery := true;
         timerActive := timerActive c; timerInterval := timerInterval c;
         clockReads := clockReads c;
         effects := effects c ++ (QueryExec <$> rects) |}.
Proof.
  revert c. induction rects as [|r rest IH]; intros c Hq.
  - destruct c as [m st gz lu ls [cr cl l] regs q ta ti cr' es].
    simpl in *. subst q. rewrite !app_nil_r. reflexivity.
  - cbn [queryRects]. rewrite Hq. cbn zeta.
    rewrite IH by exact Hq.
    cbn [effect set_aircraftCache cache_setList manager currentState
         whazzupGzipped lastUpdateTime lastServerDownload aircraftCache
         simulatorAiRegistrations timerActive timerInterval clockReads
         effects cacheList curRect curMapLayer].
    rewrite appendClients_filter.
    rewrite fmap_cons, concat_cons, fmap_app, List.filter_app.
    rewrite <- !app_assoc. reflexivity.
Qed.

(** The test in front of the append, in words: the registration is not
    in the snapshot, or the snapshot position is farther away than
    [MIN_DISTANCE_DUPLICATE]. *)
Lemma notDuplicate_true (cur : gmap string Pos) (aircraft : SimConnectAircraft) :
  notDuplicate cur aircraft = true
  <-> cur !! getAirplaneRegistration aircraft = None
      \/ exists p, cur !! getAirplaneRegistration aircraft = Some p
                   /\ (inject_Z (nmToMeter 30)
                       < distanceMeterTo (getPosition aircraft) p)%Q.
Proof.
  unfold notDuplicate, contains, value, MIN_DISTANCE_DUPLICATE.
  destruct (cur !! getAirplaneRegistration aircraft) as [p|] eqn:Hreg.
  - rewrite bool_decide_eq_true_2 by (exists p; reflexivity).
    cbn [negb orb default]. rewrite Qgt_bool_true. split.
    + intros Hfar. right. exists p. split; [reflexivity|exact Hfar].
    + intros [Hnone|(q & Hq & Hfar)]; [discriminate|].
      injection Hq as <-. exact Hfar.
  - rewrite bool_decide_eq_false_2 by (intros [? ?]; discriminate).
    cbn [negb orb]. split; [intros _; left; reflexivity|reflexivity].
Qed.

(** A lazy query leaves the cache to the registration comparison alone. *)
Lemma invalidateCache_lazy (rect : GeoDataLatLonBox) (mapLayer : MapLayer)
    (app : NavApp) (c : Controller) :
  invalidateCache rect mapLayer true app c =
    if bool_decide
         (keys (simulatorAiRegistrations c) ≠ keys (curRegistrationsOf app))
    then aircraftCacheClear c else c.
Proof.
  unfold invalidateCache, updateCache. cbn zeta.
  replace (set_aircraftCache (aircraftCache c) c) with c
    by (destruct c; reflexivity).
  reflexivity.
Qed.

(** [invalidateCache] touches the cache only. *)
Lemma invalidateCache_frame (rect : GeoDataLatLonBox) (mapLayer : MapLayer)
    (lazy : bool) (app : NavApp) (c : Controller) :
  let c0 := invalidateCache rect mapLayer lazy app c in
  effects c0 = effects c
  /\ simulatorAiRegistrations c0 = simulatorAiRegistrations c
  /\ aircraftByRectQuery c0 = aircraftByRectQuery c
  /\ manager c0 = manager c.
Proof.
  unfold invalidateCache. cbn zeta.
  case_bool_decide; repeat split; reflexivity.
Qed.

(** A query that finds records in the cache, or is lazy, returns the
    truncated cache and executes no SQL query. *)
Lemma getAircraft_cached (rect : GeoDataLatLonBox) (mapLayer : MapLayer)
    (lazy : bool) (app : NavApp) (c : Controller) :
  let c0 := invalidateCache rect mapLayer lazy app c in
  lazy = true \/ cacheList (aircraftCache c0) <> [] ->
  getAircraft rect mapLayer lazy app c =
    Some (take (Z.to_nat queryMaxRows) (cacheList (aircraftCache c0)),
          set_aircraftCache (validate queryMaxRows (aircraftCache c0)) c0).
Proof.
  intros c0 Hc. unfold getAircraft. fold c0. cbn zeta.
  assert (Hb : bool_decide (cacheList (aircraftCache c0) = []) && negb lazy
               = false).
  { destruct Hc as [->|Hne].
    - apply andb_false_r.
    - rewrite bool_decide_eq_false_2 by exact Hne. reflexivity. }
  rewrite Hb. reflexivity.
Qed.

(** A query that is not lazy and finds the cache empty rebuilds it: one
    SQL query per rectangle of the split, the kept rows appended in order,
    the snapshot remembered, and the result truncated. *)
Lemma getAircraft_rebuild (rect : GeoDataLatLonBox) (mapLayer : MapLayer)
    (app : NavApp) (c : Controller) :
  let c0 := invalidateCache rect mapLayer false app c in
  let cur := curRegistrationsOf app in
  let rects :=
    splitAtAntiMeridian rect queryRectInflationFactor
      queryRectInflationIncrement in
  let kept :=
    List.filter (notDuplicate cur)
      (fillFromClient <$> concat (selectClientsInRect (manager c) <$> rects)) in
  aircraftByRectQuery c = true ->
  cacheList (aircraftCache c0) = [] ->
  exists c',
    getAircraft rect mapLayer false app c
      = Some (take (Z.to_nat queryMaxRows) kept, c')
    /\ cacheList (aircraftCache c') = take (Z.to_nat queryMaxRows) kept
    /\ effects c' = effects c ++ (QueryExec <$> rects)
    /\ simulatorAiRegistrations c' = cur.
Proof.
  intros c0 cur rects kept Hq Hempty.
  destruct (invalidateCache_frame rect mapLayer false app c)
    as (Heff & _ & Hq0 & Hm). fold c0 in Heff, Hq0, Hm.
  unfold getAircraft. fold c0. cbn zeta.
  rewrite bool_decide_eq_true_2 by exact Hempty. cbn [negb andb].
  rewrite queryRects_prepared by (rewrite Hq0; exact Hq).
  rewrite Hempty, Hm, Heff. cbn [List.app].
  eexists. split; [reflexivity|].
  repeat split; reflexivity.
Qed.

(** C5 (amended): line 397 compares the key lists of the two hash tables.
    When the key set of the fresh registration snapshot differs from the
    remembered one the lists differ and the cache is cleared; a query that
    is not lazy then queries the backing store again in the same call (one
    SQL query per rectangle) and remembers the fresh snapshot, while a lazy
    query returns the empty cache, executes no SQL query and keeps the old
    remembered snapshot.  The cache is also cleared when the key sets are
    equal but the two tables list the keys in different orders.  When the
    key lists are equal the cache is what [updateCache] left: it is not
    cleared on that account. *)
Theorem registration_change_clears_cache (rect : GeoDataLatLonBox)
    (mapLayer : MapLayer) (lazy : bool) (app : NavApp) (c : Controller) :
  let cur := curRegistrationsOf app in
  let updated :=
    updateCache rect mapLayer queryRectInflationFactor
      queryRectInflationIncrement lazy hasSameQueryParametersWaypoint
      (aircraftCache c) in
  let rects :=
    splitAtAntiMeridian rect queryRectInflationFactor
      queryRectInflationIncrement in
  let kept :=
    List.filter (notDuplicate cur)
      (fillFromClient <$> concat (selectClientsInRect (manager c) <$> rects)) in
  (dom (simulatorAiRegistrations c) <> dom cur ->
     aircraftCache (invalidateCache rect mapLayer lazy app c)
       = cache_clear updated
     /\ (lazy = true ->
         exists c',
           getAircraft rect mapLayer lazy app c = Some ([], c')
           /\ effects c' = effects c
           /\ simulatorAiRegistrations c' = simulatorAiRegistrations c)
     /\ (lazy = false -> aircraftByRectQuery c = true ->
         exists c',
           getAircraft rect mapLayer lazy app c
             = Some (take (Z.to_nat queryMaxRows) kept, c')
           /\ queriesOf (effects c') = queriesOf (effects c) ++ rects
           /\ simulatorAiRegistrations c' = cur))
  /\ (keys (simulatorAiRegistrations c) <> keys cur ->
     aircraftCache (invalidateCache rect mapLayer lazy app c)
       = cache_clear updated)
  /\ (keys (simulatorAiRegistrations c) = keys cur ->
     aircraftCache (invalidateCache rect mapLayer lazy app c) = updated).
Proof.
  intros cur updated rects kept.
  assert (Hclear : keys (simulatorAiRegistrations c) <> keys cur ->
                   aircraftCache (invalidateCache rect mapLayer lazy app c)
                   = cache_clear updated).
  { intros Hkeys. unfold invalidateCache. cbn zeta.
    rewrite bool_decide_eq_true_2; [reflexivity|exact Hkeys]. }
  split; [|split; [exact Hclear|]].
  - intros Hdom.
    assert (Hkeys : keys (simulatorAiRegistrations c) <> keys cur).
    { intros Hk. apply Hdom. apply keys_eq_dom. exact Hk. }
    specialize (Hclear Hkeys).
    split; [exact Hclear|]. split.
    + intros ->.
      rewrite getAircraft_cached by (left; reflexivity).
      rewrite Hclear. cbn [cache_clear cacheList]. rewrite take_nil.
      eexists. split; [reflexivity|].
      destruct (invalidateCache_frame rect mapLayer true app c)
        as (Heff & Hregs & _).
      split; [exact Heff|exact Hregs].
    + intros -> Hq.
      destruct (getAircraft_rebuild rect mapLayer app c Hq)
        as (c' & Hget & _ & Heff & Hregs).
      { rewrite Hclear. reflexivity. }
      exists c'. split; [exact Hget|]. split; [|exact Hregs].
      rewrite Heff, queriesOf_app, queriesOf_QueryExec. reflexivity.
  - intros Hkeys. unfold invalidateCache. cbn zeta.
    rewrite bool_decide_eq_false_2; [reflexivity|].
    intros Hne. exact (Hne Hkeys).
Qed.

(** C6: in a cache rebuild the rows of an executed query are taken in
    order and a record is appended exactly when its registration is not in
    the registration snapshot or its position is more than 30 nautical
    miles ([MIN_DISTANCE_DUPLICATE], nmToMeter(30) metres) from the
    snapshot position of that registration; a record within that distance
    of the snapshot position of its registration is left out.  The list a
    rebuilding query collects is the kept rows of all rectangles. *)
Theorem rebuild_excludes_close_duplicates (cur : gmap string Pos)
    (rows : list SqlRecord) (l : list SimConnectAircraft) :
  appendClients cur rows l
    = l ++ List.filter (notDuplicate cur) (fillFromClient <$> rows)
  /\ (forall aircraft : SimConnectAircraft,
        notDuplicate cur aircraft = true
        <-> cur !! getAirplaneRegistration aircraft = None
            \/ exists p, cur !! getAirplaneRegistration aircraft = Some p
                         /\ (inject_Z (nmToMeter 30)
                             < distanceMeterTo (getPosition aircraft) p)%Q)
  /\ (forall (aircraft : SimConnectAircraft) (p : Pos),
        cur !! getAirplaneRegistration aircraft = Some p ->
        (distanceMeterTo (getPosition aircraft) p
         <= inject_Z (nmToMeter 30))%Q ->
        notDuplicate cur aircraft = false)
  /\ (forall (rect : GeoDataLatLonBox) (mapLayer : MapLayer) (app : NavApp)
             (c : Controller),
        cur = curRegistrationsOf app ->
        aircraftByRectQuery c = true ->
        cacheList (aircraftCache (invalidateCache rect mapLayer false app c))
          = [] ->
        exists c',
          getAircraft rect mapLayer false app c
            = Some (take (Z.to_nat queryMaxRows)
                      (List.filter (notDuplicate cur)
                         (fillFromClient
                            <$> concat
                                  (selectClientsInRect (manager c)
                                     <$> splitAtAntiMeridian rect
                                           queryRectInflationFactor
                                           queryRectInflationIncrement))),
                    c')).
Proof.
  split; [apply appendClients_filter|].
  split; [apply notDuplicate_true|].
  split.
  - intros aircraft p Hreg Hnear.
    destruct (notDuplicate cur aircraft) eqn:Hnd; [|reflexivity].
    apply notDuplicate_true in Hnd.
    destruct Hnd as [Hnone|(q & Hq & Hfar)]; [congruence|].
    assert (q = p) as -> by congruence.
    exfalso. exact (Qlt_not_le _ _ Hfar Hnear).
  - intros rect mapLayer app c -> Hq Hempty.
    destruct (getAircraft_rebuild rect mapLayer app c Hq Hempty)
      as (c' & Hget & _).
    exists c'. exact Hget.
Qed.

(** C7: every spatial query that can run (it is lazy, or the SQL query is
    prepared) returns the list of the cache, and that list has at most
    5000 records, whatever the one or two queries of the rectangles
    deliver.  The bound comes from [validate]. *)
Theorem query_result_within_row_ceiling (rect : GeoDataLatLonBox)
    (mapLayer : MapLayer) (lazy : bool) (app : NavApp) (c : Controller) :
  lazy = true \/ aircraftByRectQuery c = true ->
  exists l c',
    getAircraft rect mapLayer lazy app c = Some (l, c')
    /\ cacheList (aircraftCache c') = l
    /\ (length l <= 5000)%nat.
Proof.
  intros Hq.
  assert (Hlen : forall k : list SimConnectAircraft,
             (length (take (Z.to_nat queryMaxRows) k) <= 5000)%nat).
  { intros k. rewrite length_take. unfold queryMaxRows. lia. }
  destruct lazy.
  - rewrite getAircraft_cached by (left; reflexivity).
    eexists _, _. split; [reflexivity|]. split; [reflexivity|]. apply Hlen.
  - destruct Hq as [Hlazy|Hq]; [discriminate Hlazy|].
    destruct (cacheList (aircraftCache
                (invalidateCache rect mapLayer false app c))) as [|a k] eqn:Hl.
    + destruct (getAircraft_rebuild rect mapLayer app c Hq Hl)
        as (c' & Hget & Hcache & _).
      eexists _, c'. split; [exact Hget|]. split; [exact Hcache|]. apply Hlen.
    + rewrite getAircraft_cached by (right; rewrite Hl; discriminate).
      eexists _, _. split; [reflexivity|]. split; [reflexivity|]. apply Hlen.
Qed.

(** C9: two lazy queries in a row with the same region, layer and
    simulator data return the same record sequence, and neither executes
    an SQL query: the effect trace after the second is the one before the
    first.  This holds for every cache, a non-empty one in particular; when
    the key list of the remembered registrations is that of the fresh
    snapshot, the sequence is the cached records up to the row ceiling. *)
Theorem lazy_query_idempotent (rect : GeoDataLatLonBox) (mapLayer : MapLayer)
    (app : NavApp) (c : Controller) :
  exists l c1 c2,
    getAircraft rect mapLayer true app c = Some (l, c1)
    /\ getAircraft rect mapLayer true app c1 = Some (l, c2)
    /\ effects c1 = effects c
    /\ effects c2 = effects c
    /\ queriesOf (effects c2) = queriesOf (effects c)
    /\ (cacheList (aircraftCache c) <> [] ->
        keys (simulatorAiRegistrations c) = keys (curRegistrationsOf app) ->
        l = take (Z.to_nat queryMaxRows) (cacheList (aircraftCache c))).
Proof.
  rewrite getAircraft_cached by (left; reflexivity).
  rewrite invalidateCache_lazy.
  destruct (bool_decide
              (keys (simulatorAiRegistrations c)
               ≠ keys (curRegistrationsOf app))) eqn:Hkeys.
  - eexists _, _, _. split; [reflexivity|].
    rewrite getAircraft_cached by (left; reflexivity).
    rewrite invalidateCache_lazy.
    cbn [aircraftCacheClear set_aircraftCache simulatorAiRegistrations].
    rewrite Hkeys.
    split; [reflexivity|]. repeat split; try reflexivity.
    intros _ Hsame. apply bool_decide_eq_true_1 in Hkeys.
    exfalso. apply Hkeys. exact Hsame.
  - eexists _, _, _. split; [reflexivity|].
    rewrite getAircraft_cached by (left; reflexivity).
    rewrite invalidateCache_lazy.
    cbn [set_aircraftCache simulatorAiRegistrations].
    rewrite Hkeys.
    cbn [set_aircraftCache aircraftCache validate cacheList].
    rewrite take_take, Nat.min_id.
    split; [reflexivity|]. repeat split; reflexivity.
Qed.
End SpatialProperties.

(** ** The properties on the concrete world *)

Section SampleRuns.
#[local] Existing Instances Sample.geo Sample.mgr Sample.plat.

Lemma startDownloadTimer_interval_precedence_witness :
  let m := Sample.managerState EmptyString 0 in
  let c := Sample.controller NONE m 0 [] ∅ true in
  intervalSeconds (Sample.options ONLINE_CUSTOM 120 (-1)) m = 120
  /\ intervalSeconds (Sample.options ONLINE_VATSIM 120 (-1)) m = 60
  /\ intervalSeconds (Sample.options ONLINE_IVAO 120 500) m = 500
  /\ timerInterval
       (startDownloadTimer (Sample.app (Sample.options ONLINE_IVAO 120 500)) c)
     = 500000.
Proof.
  intros m c.
  pose proof (startDownloadTimer_interval_precedence
                (Sample.app (Sample.options ONLINE_CUSTOM 120 (-1))) c)
    as (_ & _ & Hcustom & _).
  pose proof (startDownloadTimer_interval_precedence
                (Sample.app (Sample.options ONLINE_VATSIM 120 (-1))) c)
    as (_ & _ & _ & Hwhazzup & _).
  pose proof (startDownloadTimer_interval_precedence
                (Sample.app (Sample.options ONLINE_IVAO 120 500)) c)
    as (_ & Hmsec & _ & _ & Hcfg).
  split; [apply Hcustom; left; reflexivity|].
  split.
  { apply Hwhazzup.
    - intros [Hc|Hc]; discriminate Hc.
    - reflexivity.
    - unfold int_range. cbn. lia. }
  split; [|exact Hmsec].
  apply Hcfg.
  - intros [Hc|Hc]; discriminate Hc.
  - cbn. lia.
Defined.

Lemma whazzup_accepted_without_voice_url_witness :
  let m := Sample.managerState EmptyString 2 in
  let c :=
    Sample.controller DOWNLOADING_WHAZZUP m 0
      [Sample.aircraft 12 "G-ABCD" 3000] {["N12345" := 1000]} true in
  let c' :=
    downloadFinished [Byte.x41] "http://whazzup.gz"
      (Sample.app (Sample.options ONLINE_VATSIM 180 (-1))) c in
  readWhazzupPayload [Byte.x41]
    (Sample.app (Sample.options ONLINE_VATSIM 180 (-1))) c
    = (Sample.withWhazzupTime 1 m, true)
  /\ cacheList (aircraftCache c') = []
  /\ simulatorAiRegistrations c' = ∅
  /\ signalsOf (effects c') = [onlineClientAndAtcUpdated true true]
  /\ currentState c' = NONE
  /\ lastUpdateTime c' = 900000
  /\ timerActive c' = true
  /\ timerInterval c' = 120000.
Proof.
  intros m c c'.
  pose proof (whazzup_accepted_without_voice_url [Byte.x41]
                "http://whazzup.gz"
                (Sample.app (Sample.options ONLINE_VATSIM 180 (-1))) c
                (Sample.withWhazzupTime 1 m) eq_refl eq_refl eq_refl)
    as (Hcache & Hregs & _ & Hsig & Hst & Htime & Hact & Hint).
  split; [reflexivity|].
  split; [exact Hcache|]. split; [exact Hregs|]. split; [exact Hsig|].
  split; [exact Hst|]. split; [exact Htime|]. split; [exact Hact|exact Hint].
Defined.

Lemma whazzup_rejected_finishes_silently_witness :
  let m := Sample.managerState "http://voice" 2 in
  let c :=
    Sample.controller DOWNLOADING_WHAZZUP m 0
      [Sample.aircraft 12 "G-ABCD" 3000] {["N12345" := 1000]} true in
  let c' :=
    downloadFinished [] "http://whazzup.gz"
      (Sample.app (Sample.options ONLINE_VATSIM 180 (-1))) c in
  readWhazzupPayload []
    (Sample.app (Sample.options ONLINE_VATSIM 180 (-1))) c = (m, false)
  /\ signalsOf (effects c') = []
  /\ cacheList (aircraftCache c') = [Sample.aircraft 12 "G-ABCD" 3000]
  /\ simulatorAiRegistrations c' = {["N12345" := 1000]}
  /\ timerActive c' = true
  /\ timerInterval c' = 120000
  /\ currentState c' = NONE
  /\ lastUpdateTime c' = 900000.
Proof.
  intros m c c'.
  pose proof (whazzup_rejected_finishes_silently []
                "http://whazzup.gz"
                (Sample.app (Sample.options ONLINE_VATSIM 180 (-1))) c
                m eq_refl eq_refl)
    as (Hsig & _ & Hcache & Hregs & Hact & Hint & Hst & Htime).
  split; [reflexivity|].
  split; [exact Hsig|].
  split; [exact (f_equal cacheList Hcache)|].
  split; [exact Hregs|]. split; [exact Hact|]. split; [exact Hint|].
  split; [exact Hst|exact Htime].
Defined.

(** The claim C2 as it is written fails when exactly 15 minutes have
    passed: the last server download was at the epoch, the clock shows
    900000 ms, so at least 15 minutes have elapsed, and still the stage
    does not become DOWNLOADING_WHAZZUP_SERVERS and no download is posted:
    the cycle ends. *)
Lemma whazzup_servers_at_exactly_15_minutes_counterexample :
  let m := Sample.managerState "http://voice" 2 in
  let c := Sample.controller DOWNLOADING_WHAZZUP m 0 [] ∅ true in
  let app := Sample.app (Sample.options ONLINE_VATSIM 180 (-1)) in
  let c' := downloadFinished [Byte.x41] "http://whazzup.gz" app c in
  currentState c = DOWNLOADING_WHAZZUP
  /\ snd (readWhazzupPayload [Byte.x41] app c) = true
  /\ isEmpty
       (getWhazzupVoiceUrlFromStatus
          (fst (readWhazzupPayload [Byte.x41] app c))) = false
  /\ MIN_SERVER_DOWNLOAD_INTERVAL_MIN * 60 * 1000
     <= currentDateTime (clockReads c) - lastServerDownload c
  /\ currentState c' <> DOWNLOADING_WHAZZUP_SERVERS
  /\ currentState c' = NONE
  /\ effects c' = [TimerStop; TimerStart 120000;
                   Emit (onlineClientAndAtcUpdated true true)].
Proof.
  cbv zeta.
  split; [reflexivity|]. split; [reflexivity|]. split; [reflexivity|].
  split; [vm_compute; discriminate|].
  split; [vm_compute; discriminate|].
  split; reflexivity.
Qed.

Lemma whazzup_accepted_with_voice_url_witness :
  let m := Sample.managerState "http://voice" 2 in
  let late := Sample.controller DOWNLOADING_WHAZZUP m (-1) [] ∅ true in
  let early := Sample.controller DOWNLOADING_WHAZZUP m 0 [] ∅ true in
  let app := Sample.app (Sample.options ONLINE_VATSIM 180 (-1)) in
  (currentState (downloadFinished [Byte.x41] "http://whazzup.gz" app late)
     = DOWNLOADING_WHAZZUP_SERVERS
   /\ effects (downloadFinished [Byte.x41] "http://whazzup.gz" app late)
      = [SetUrl "http://voice"; PostStartDownload])
  /\ (currentState (downloadFinished [Byte.x41] "http://whazzup.gz" app early)
      = NONE
     /\ lastUpdateTime (downloadFinished [Byte.x41] "http://whazzup.gz" app early)
        = 900001).
Proof.
  intros m late early app.
  pose proof (whazzup_accepted_with_voice_url [Byte.x41] "http://whazzup.gz"
                app late (Sample.withWhazzupTime 1 m)
                eq_refl eq_refl eq_refl) as (Hfetch & _).
  pose proof (whazzup_accepted_with_voice_url [Byte.x41] "http://whazzup.gz"
                app early (Sample.withWhazzupTime 1 m)
                eq_refl eq_refl eq_refl) as (_ & Hfinish).
  split.
  - assert (Hlate : MIN_SERVER_DOWNLOAD_INTERVAL_MIN * 60 * 1000
                    < currentDateTime (clockReads late)
                      - lastServerDownload late) by (vm_compute; reflexivity).
    destruct (Hfetch Hlate) as (Hst & Heff & _).
    split; [exact Hst|exact Heff].
  - assert (Hearly : currentDateTime (clockReads early)
                     - lastServerDownload early
                     <= MIN_SERVER_DOWNLOAD_INTERVAL_MIN * 60 * 1000)
      by (vm_compute; discriminate).
    destruct (Hfinish Hearly) as (_ & _ & _ & _ & _ & Hst & Htime & _).
    split; [exact Hst|exact Htime].
Defined.

Lemma downloadFailed_stops_warns_restarts_witness :
  let m := Sample.managerState "http://voice" 2 in
  let c :=
    Sample.controller DOWNLOADING_WHAZZUP m 0
      [Sample.aircraft 12 "G-ABCD" 3000] {["N12345" := 1000]} true in
  let app := Sample.app (Sample.options ONLINE_VATSIM 180 (-1)) in
  let c' := downloadFailed "timeout" "http://whazzup.gz" app c in
  timerActive c' = false
  /\ simulatorAiRegistrations c' = ∅
  /\ currentState c' <> NONE
  /\ effects c' =
       [CancelDownload; TimerStop; WarningBox "http://whazzup.gz" "timeout";
        CancelDownload; TimerStop; SetDefaultUserAgentShort " Config/VATSIM";
        SetUrl "http://whazzup.gz"; PostStartDownload].
Proof.
  intros m c app c'.
  pose proof (downloadFailed_stops_warns_restarts "timeout"
                "http://whazzup.gz" app c)
    as (_ & _ & _ & _ & _ & Htimer & Hregs & _ & Hstart).
  split; [exact Htimer|]. split; [exact Hregs|].
  split; [|reflexivity].
  apply Hstart; [discriminate|left; reflexivity].
Defined.

(** The claim C5 as it is written fails for a lazy query: the remembered
    registrations are those of the user aircraft alone, the simulator now
    also reports D-EABC, so the key sets differ; the lazy query clears the
    cache and returns nothing, but it executes no SQL query. *)
Lemma lazy_query_after_registration_change_counterexample :
  let m := Sample.managerState EmptyString 2 in
  let c :=
    Sample.controller NONE m 0 [Sample.aircraft 12 "G-ABCD" 3000]
      {["N12345" := 1000]} true in
  let app := Sample.app (Sample.options ONLINE_VATSIM 180 (-1)) in
  dom (simulatorAiRegistrations c) <> dom (curRegistrationsOf app)
  /\ aircraftByRectQuery c = true
  /\ exists c',
       getAircraft (Sample.rect 0 100000) (Sample.layer 7) true app c
         = Some ([], c')
       /\ queriesOf (effects c') = queriesOf (effects c)
       /\ effects c' = [].
Proof.
  cbv zeta. split.
  - intros Hdom.
    assert (Hin : "D-EABC" ∈ dom (curRegistrationsOf
                    (Sample.app (Sample.options ONLINE_VATSIM 180 (-1)))))
      by (apply elem_of_dom; exists 200000; reflexivity).
    rewrite <- Hdom in Hin.
    apply elem_of_dom in Hin. destruct Hin as [p Hp].
    vm_compute in Hp. discriminate Hp.
  - split; [reflexivity|].
    eexists. split; [vm_compute; reflexivity|]. split; reflexivity.
Qed.

Lemma registration_change_clears_cache_witness :
  let m := Sample.managerState EmptyString 2 in
  let app := Sample.app (Sample.options ONLINE_VATSIM 180 (-1)) in
  let changed :=
    Sample.controller NONE m 0 [Sample.aircraft 12 "G-ABCD" 3000]
      {["N12345" := 1000]} true in
  let same :=
    Sample.controller NONE m 0 [Sample.aircraft 12 "G-ABCD" 3000]
      {["N12345" := 5; "D-EABC" := 6]} true in
  (exists c',
     getAircraft (Sample.rect 0 100000) (Sample.layer 7) false app changed
       = Some ([Sample.aircraft 11 "N12345" 90000;
                Sample.aircraft 12 "G-ABCD" 3000;
                Sample.aircraft 13 EmptyString 1000], c')
     /\ queriesOf (effects c') = [Sample.rect 0 100000])
  /\ cacheList
       (aircraftCache
          (invalidateCache (Sample.rect 0 100000) (Sample.layer 7) false app
             same))
     = [Sample.aircraft 12 "G-ABCD" 3000]
  /\ (dom (simulatorAiRegistrations same) = dom (curRegistrationsOf app)
      /\ cacheList
           (aircraftCache
              (invalidateCache (plat := Sample.platShuffled)
                 (Sample.rect 0 100000) (Sample.layer 7) true app same))
         = []).
Proof.
  intros m app changed same.
  pose proof (registration_change_clears_cache (plat := Sample.platShuffled)
                (Sample.rect 0 100000) (Sample.layer 7) true app same)
    as (_ & Hshuffled & _).
  pose proof (registration_change_clears_cache (Sample.rect 0 100000)
                (Sample.layer 7) false app changed) as (Hdiff & _).
  pose proof (registration_change_clears_cache (Sample.rect 0 100000)
                (Sample.layer 7) false app same) as (_ & _ & Hsame).
  split.
  - assert (Hdom : dom (simulatorAiRegistrations changed)
                   <> dom (curRegistrationsOf app)).
    { intros Hdom.
      assert (Hin : "D-EABC" ∈ dom (curRegistrationsOf app))
        by (apply elem_of_dom; exists 200000; reflexivity).
      rewrite <- Hdom in Hin.
      apply elem_of_dom in Hin. destruct Hin as [p Hp].
      vm_compute in Hp. discriminate Hp. }
    destruct (Hdiff Hdom) as (_ & _ & Hquery).
    destruct (Hquery eq_refl eq_refl) as (c' & Hget & Hq & _).
    exists c'. split; [exact Hget|exact Hq].
  - split.
    + assert (Hkeys : keys (simulatorAiRegistrations same)
                      = keys (curRegistrationsOf app))
        by (vm_compute; reflexivity).
      rewrite (Hsame Hkeys). reflexivity.
    + split; [vm_compute; reflexivity|].
      assert (Hkeys : keys (plat := Sample.platShuffled)
                        (simulatorAiRegistrations same)
                      <> keys (plat := Sample.platShuffled)
                           (curRegistrationsOf app))
        by (vm_compute; discriminate).
      rewrite (Hshuffled Hkeys). reflexivity.
Defined.

Lemma rebuild_excludes_close_duplicates_witness :
  let m := Sample.managerState EmptyString 2 in
  let app := Sample.app (Sample.options ONLINE_VATSIM 180 (-1)) in
  let cur := curRegistrationsOf app in
  let c := Sample.controller NONE m 0 [] ∅ true in
  notDuplicate cur (Sample.aircraft 10 "N12345" 2000) = false
  /\ notDuplicate cur (Sample.aircraft 11 "N12345" 90000) = true
  /\ notDuplicate cur (Sample.aircraft 12 "G-ABCD" 3000) = true
  /\ exists c',
       getAircraft (Sample.rect 0 100000) (Sample.layer 7) false app c
         = Some ([Sample.aircraft 11 "N12345" 90000;
                  Sample.aircraft 12 "G-ABCD" 3000;
                  Sample.aircraft 13 EmptyString 1000], c').
Proof.
  intros m app cur c.
  pose proof (rebuild_excludes_close_duplicates cur [] [])
    as (_ & Hiff & Hnear & Hrebuild).
  split.
  { apply (Hnear (Sample.aircraft 10 "N12345" 2000) 1000).
    - reflexivity.
    - vm_compute. discriminate. }
  split.
  { apply Hiff. right. exists 1000. split; [reflexivity|].
    vm_compute. reflexivity. }
  split.
  { apply Hiff. left. reflexivity. }
  destruct (Hrebuild (Sample.rect 0 100000) (Sample.layer 7) app c
              eq_refl eq_refl eq_refl) as (c' & Hget).
  exists c'. exact Hget.
Defined.

Lemma query_result_within_row_ceiling_witness :
  let m := Sample.managerState EmptyString 2 in
  let app := Sample.app (Sample.options ONLINE_VATSIM 180 (-1)) in
  let c := Sample.controller NONE m 0 [] ∅ true in
  aircraftByRectQuery c = true
  /\ exists l c',
       getAircraft (Sample.rect 0 100000) (Sample.layer 7) false app c
         = Some (l, c')
       /\ cacheList (aircraftCache c') = l
       /\ (length l <= 5000)%nat.
Proof.
  intros m app c. split; [reflexivity|].
  exact (query_result_within_row_ceiling (Sample.rect 0 100000)
           (Sample.layer 7) false app c (or_intror eq_refl)).
Defined.

Lemma lazy_query_idempotent_witness :
  let m := Sample.managerState EmptyString 2 in
  let app := Sample.app (Sample.options ONLINE_VATSIM 180 (-1)) in
  let c :=
    Sample.controller NONE m 0 [Sample.aircraft 12 "G-ABCD" 3000]
      {["N12345" := 5; "D-EABC" := 6]} true in
  exists c1 c2,
    getAircraft (Sample.rect 0 100000) (Sample.layer 7) true app c
      = Some ([Sample.aircraft 12 "G-ABCD" 3000], c1)
    /\ getAircraft (Sample.rect 0 100000) (Sample.layer 7) true app c1
       = Some ([Sample.aircraft 12 "G-ABCD" 3000], c2)
    /\ effects c2 = [].
Proof.
  intros m app c.
  destruct (lazy_query_idempotent (Sample.rect 0 100000) (Sample.layer 7)
              app c) as (l & c1 & c2 & Hfirst & Hsecond & _ & Heff & _ & Hl).
  assert (Hlist : l = [Sample.aircraft 12 "G-ABCD" 3000]).
  { apply Hl; [discriminate|vm_compute; reflexivity]. }
  rewrite Hlist in Hfirst, Hsecond.
  exists c1, c2. split; [exact Hfirst|]. split; [exact Hsecond|exact Heff].
Defined.
End SampleRuns.

(** * Further properties of the download chain *)

Section ChainFurther.
Context {geo : GeoApi} {mgr : ManagerApi} {plat : PlatformApi}.

(** [startDownloadInternal] leaves the manager alone. *)
Lemma startDownloadInternal_manager (app : NavApp) (c : Controller) :
  manager (startDownloadInternal app c) = manager c
  /\ clockReads (startDownloadInternal app c) = clockReads c
  /\ lastServerDownload (startDownloadInternal app c) = lastServerDownload c
  /\ lastUpdateTime (startDownloadInternal app c) = lastUpdateTime c.
Proof.
  unfold startDownloadInternal. rewrite stopAllProcesses_spec.
  cbn [manager whazzupGzipped currentState].
  destruct (bool_decide (getOnlineNetwork (optionData app) = ONLINE_NONE));
    [repeat split; reflexivity|].
  destruct (getWhazzupUrlFromStatus (manager c) (whazzupGzipped c))
    as [fromStatus gz].
  cbn [set_whazzupGzipped currentState].
  rewrite bool_decide_eq_true_2 by reflexivity.
  destruct (optionsNoUserAgent app), (isEmpty fromStatus),
    (isEmpty (getOnlineStatusUrl (optionData app))) eqn:Hs,
    (isEmpty (getOnlineWhazzupUrl (optionData app))) eqn:Hw;
    cbn; rewrite ?Hs, ?Hw; cbn;
    try (destruct fromStatus; cbn);
    repeat split; reflexivity.
Qed.

(** X1: without a selected network a start only stops what is running:
    the download is cancelled and the timer stopped, the stage is NONE, no
    user agent or URL is set and no download is posted.  The network name
    of [getNetwork] is empty exactly in this case. *)
Theorem start_without_network_only_stops (app : NavApp) (c : Controller) :
  isNetworkActive (optionData app) = false ->
  let c' := startProcessing app c in
  currentState c' = NONE
  /\ effects c' = effects c ++ [CancelDownload; TimerStop]
  /\ timerActive c' = false
  /\ whazzupGzipped c' = whazzupGzipped c
  /\ isEmpty (getNetwork (optionData app)) = true.
Proof.
  intros Hnet c'. subst c'. unfold isNetworkActive in Hnet.
  apply bool_decide_eq_false_1 in Hnet.
  assert (Hnone : getOnlineNetwork (optionData app) = ONLINE_NONE).
  { destruct (decide (getOnlineNetwork (optionData app) = ONLINE_NONE));
      [assumption|contradiction]. }
  unfold startProcessing, startDownloadInternal.
  rewrite stopAllProcesses_spec. cbn zeta.
  rewrite bool_decide_eq_true_2 by exact Hnone.
  cbn. rewrite <- app_assoc. unfold getNetwork. rewrite Hnone.
  repeat split; reflexivity.
Qed.

(** X2: with a network selected, a start picks the URL in this order: a
    whazzup URL known from an earlier status file wins and starts the
    whazzup stage; otherwise the configured status URL starts the status
    stage; otherwise the configured whazzup URL starts the whazzup stage;
    with no URL at all the controller stays in NONE and posts nothing.  The
    gzip flag is the one the manager reports. *)
Theorem start_url_precedence (app : NavApp) (c : Controller) :
  let od := optionData app in
  let fromStatus :=
    fst (getWhazzupUrlFromStatus (manager c) (whazzupGzipped c)) in
  let agent :=
    if optionsNoUserAgent app then []
    else [SetDefaultUserAgentShort (" Config/" +:+ getNetwork od)] in
  let c' := startDownloadInternal app c in
  let posted url :=
    effects c' =
      effects c ++ [CancelDownload; TimerStop] ++ agent
        ++ [SetUrl url; PostStartDownload] in
  getOnlineNetwork od <> ONLINE_NONE ->
  whazzupGzipped c'
    = snd (getWhazzupUrlFromStatus (manager c) (whazzupGzipped c))
  /\ (isEmpty fromStatus = false ->
      currentState c' = DOWNLOADING_WHAZZUP /\ posted fromStatus)
  /\ (isEmpty fromStatus = true -> isEmpty (getOnlineStatusUrl od) = false ->
      currentState c' = DOWNLOADING_STATUS /\ posted (getOnlineStatusUrl od))
  /\ (isEmpty fromStatus = true -> isEmpty (getOnlineStatusUrl od) = true ->
      isEmpty (getOnlineWhazzupUrl od) = false ->
      currentState c' = DOWNLOADING_WHAZZUP
      /\ posted (getOnlineWhazzupUrl od))
  /\ (isEmpty fromStatus = true -> isEmpty (getOnlineStatusUrl od) = true ->
      isEmpty (getOnlineWhazzupUrl od) = true ->
      currentState c' = NONE
      /\ effects c' = effects c ++ [CancelDownload; TimerStop] ++ agent).
Proof.
  intros od fromStatus agent c' posted Hnet.
  subst od fromStatus agent posted c'.
  unfold startDownloadInternal. rewrite stopAllProcesses_spec.
  cbn [manager whazzupGzipped currentState].
  rewrite bool_decide_eq_false_2 by exact Hnet.
  destruct (getWhazzupUrlFromStatus (manager c) (whazzupGzipped c))
    as [fromStatus gz].
  cbn [fst snd set_whazzupGzipped currentState].
  rewrite bool_decide_eq_true_2 by reflexivity.
  destruct (optionsNoUserAgent app); cbn [negb];
    (split;
     [destruct (isEmpty fromStatus),
        (isEmpty (getOnlineStatusUrl (optionData app))) eqn:Hs,
        (isEmpty (getOnlineWhazzupUrl (optionData app))) eqn:Hw;
        cbn; rewrite ?Hs, ?Hw; cbn;
        try (destruct fromStatus; cbn); reflexivity|]);
    (split; [intros Hf; rewrite Hf; cbn [andb orb negb];
             rewrite orb_true_r; rewrite Hf; cbn;
             rewrite <- ?app_assoc; split; reflexivity|]);
    (split; [intros Hf Hs; rewrite Hf, Hs; cbn [andb orb negb];
             rewrite Hs; cbn; rewrite <- ?app_assoc; split; reflexivity|]);
    (split; [intros Hf Hs Hw; rewrite Hf, Hs, Hw; cbn [andb orb negb];
             rewrite Hw; cbn; rewrite <- ?app_assoc; split; reflexivity|]);
    intros Hf Hs Hw; rewrite Hf, Hs, Hw; cbn;
    rewrite <- ?app_assoc; split; reflexivity.
Qed.

(** The status stage as one equation. *)
Lemma downloadFinished_status_eq (data : list Byte.byte) (url : string)
    (app : NavApp) (c : Controller) :
  currentState c = DOWNLOADING_STATUS ->
  downloadFinished data url app c =
    let m := readFromStatus (manager c) (toUnicode data) in
    let answer := getWhazzupUrlFromStatus m (whazzupGzipped c) in
    let c1 := set_whazzupGzipped (snd answer) (set_manager m c) in
    let c2 :=
      if isEmpty (getMessageFromStatus m) then c1
      else effect PostShowMessageDialog c1 in
    if isEmpty (fst answer) then finishCycle app c2
    else triggerDownload (fst answer)
           (set_currentState DOWNLOADING_WHAZZUP c2).
Proof.
  intros Hst. unfold downloadFinished. rewrite Hst.
  cbn [set_manager manager whazzupGzipped]. cbn zeta.
  destruct (getWhazzupUrlFromStatus
              (readFromStatus (manager c) (toUnicode data)) (whazzupGzipped c))
    as [whazzupUrl gz].
  cbn [fst snd set_whazzupGzipped set_manager manager].
  destruct (isEmpty (getMessageFromStatus
                       (readFromStatus (manager c) (toUnicode data))));
    destruct (isEmpty whazzupUrl); reflexivity.
Qed.

(** The servers stage as one equation. *)
Lemma downloadFinished_servers_eq (data : list Byte.byte) (url : string)
    (app : NavApp) (c : Controller) :
  currentState c = DOWNLOADING_WHAZZUP_SERVERS ->
  downloadFinished data url app c =
    let m :=
      readServersFromWhazzup (manager c) (toUnicode data)
        (convertFormat (getOnlineFormat (optionData app)))
        (getLastUpdateTimeFromWhazzup (manager c)) in
    effect (Emit (onlineServersUpdated true true))
      (finalizeWithUpdate app
         (set_lastServerDownload (currentDateTime (clockReads c))
            (set_clockReads (S (clockReads c)) (set_manager m c)))).
Proof.
  intros Hst. unfold downloadFinished. rewrite Hst. reflexivity.
Qed.

(** X3: a finished status download hands the text to the manager and takes
    the gzip flag from it.  With a whazzup URL in the status file the chain
    goes on to the whazzup stage and posts that download, the timer and the
    time of the last update are not touched; without one the cycle ends
    (timer running, stage NONE, time stamped).  Either way no signal is
    emitted, the caches stay, and the message dialog is posted exactly when
    the status file carries a message. *)
Theorem status_stage_completion (data : list Byte.byte) (url : string)
    (app : NavApp) (c : Controller) :
  currentState c = DOWNLOADING_STATUS ->
  let m := readFromStatus (manager c) (toUnicode data) in
  let whazzupUrl := fst (getWhazzupUrlFromStatus m (whazzupGzipped c)) in
  let dialog :=
    if isEmpty (getMessageFromStatus m) then []
    else [PostShowMessageDialog] in
  let msec := int_wrap (intervalSeconds (optionData app) m * 1000) in
  let c' := downloadFinished data url app c in
  manager c' = m
  /\ whazzupGzipped c' = snd (getWhazzupUrlFromStatus m (whazzupGzipped c))
  /\ signalsOf (effects c') = signalsOf (effects c)
  /\ aircraftCache c' = aircraftCache c
  /\ simulatorAiRegistrations c' = simulatorAiRegistrations c
  /\ (isEmpty whazzupUrl = false ->
      currentState c' = DOWNLOADING_WHAZZUP
      /\ effects c' = effects c ++ dialog ++ [SetUrl whazzupUrl; PostStartDownload]
      /\ timerActive c' = timerActive c
      /\ lastUpdateTime c' = lastUpdateTime c)
  /\ (isEmpty whazzupUrl = true ->
      currentState c' = NONE
      /\ effects c' = effects c ++ dialog ++ [TimerStop; TimerStart msec]
      /\ timerActive c' = true
      /\ timerInterval c' = msec
      /\ lastUpdateTime c' = currentDateTime (clockReads c)).
Proof.
  intros Hst m whazzupUrl dialog msec c'.
  subst m whazzupUrl dialog msec c'.
  rewrite (downloadFinished_status_eq data url app c Hst). cbn zeta.
  destruct (isEmpty (getMessageFromStatus
                       (readFromStatus (manager c) (toUnicode data))));
    destruct (isEmpty (fst (getWhazzupUrlFromStatus
                              (readFromStatus (manager c) (toUnicode data))
                              (whazzupGzipped c))));
    rewrite ?finishCycle_spec;
    cbn -[int_wrap intervalSeconds];
    rewrite ?signalsOf_app; cbn [signalsOf]; rewrite ?app_nil_r;
    rewrite <- ?app_assoc; cbn [List.app];
    repeat split; try reflexivity; discriminate.
Qed.

(** X4: a finished servers download stamps the time of the last server
    download with the first clock reading and the time of the last update
    with the second, ends the cycle (timer running, stage NONE), clears
    both caches and emits onlineClientAndAtcUpdated(true, true) followed
    by onlineServersUpdated(true, true). *)
Theorem servers_stage_completion (data : list Byte.byte) (url : string)
    (app : NavApp) (c : Controller) :
  currentState c = DOWNLOADING_WHAZZUP_SERVERS ->
  let m :=
    readServersFromWhazzup (manager c) (toUnicode data)
      (convertFormat (getOnlineFormat (optionData app)))
      (getLastUpdateTimeFromWhazzup (manager c)) in
  let msec := int_wrap (intervalSeconds (optionData app) m * 1000) in
  let c' := downloadFinished data url app c in
  manager c' = m
  /\ lastServerDownload c' = currentDateTime (clockReads c)
  /\ lastUpdateTime c' = currentDateTime (S (clockReads c))
  /\ clockReads c' = S (S (clockReads c))
  /\ currentState c' = NONE
  /\ timerActive c' = true
  /\ timerInterval c' = msec
  /\ cacheList (aircraftCache c') = []
  /\ simulatorAiRegistrations c' = ∅
  /\ effects c' =
       effects c ++ [TimerStop; TimerStart msec;
                     Emit (onlineClientAndAtcUpdated true true);
                     Emit (onlineServersUpdated true true)].
Proof.
  intros Hst m msec c'. subst m msec c'.
  rewrite (downloadFinished_servers_eq data url app c Hst).
  unfold finalizeWithUpdate. cbn zeta.
  rewrite finishCycle_spec.
  cbn -[int_wrap intervalSeconds].
  rewrite <- !app_assoc. cbn [List.app].
  repeat split; reflexivity.
Qed.

(** The stage after a completion, for each stage before it. *)
Lemma downloadFinished_next_stage (data : list Byte.byte) (url : string)
    (app : NavApp) (c : Controller) :
  match currentState c with
  | NONE | DOWNLOADING_WHAZZUP_SERVERS =>
      currentState (downloadFinished data url app c) = NONE
  | DOWNLOADING_STATUS =>
      currentState (downloadFinished data url app c) = NONE
      \/ currentState (downloadFinished data url app c) = DOWNLOADING_WHAZZUP
  | DOWNLOADING_WHAZZUP =>
      currentState (downloadFinished data url app c) = NONE
      \/ currentState (downloadFinished data url app c)
         = DOWNLOADING_WHAZZUP_SERVERS
  end.
Proof.
  destruct (currentState c) eqn:Hst.
  - unfold downloadFinished. rewrite Hst. exact Hst.
  - rewrite (downloadFinished_status_eq data url app c Hst). cbn zeta.
    destruct (isEmpty (fst (getWhazzupUrlFromStatus
                (readFromStatus (manager c) (toUnicode data))
                (whazzupGzipped c)))); [left|right]; reflexivity.
  - destruct (readWhazzupPayload data app c) as [m accepted] eqn:Hparse.
    rewrite (downloadFinished_whazzup data url app c m accepted Hst Hparse).
    cbn zeta. destruct accepted; [|left; reflexivity].
    destruct (isEmpty (getWhazzupVoiceUrlFromStatus m)); [left; reflexivity|].
    case_bool_decide; [right|left]; reflexivity.
  - rewrite (downloadFinished_servers_eq data url app c Hst). reflexivity.
Qed.

(** X5: a completion never moves the chain backwards: from the status
    stage it goes to the whazzup stage or ends, from the whazzup stage to
    the servers stage or ends, from the servers stage it ends, and it is
    never in the status stage afterwards.  So whatever the payloads and the
    configuration are, three completions in a row end the chain. *)
Theorem chain_ends_within_three_completions
    (d1 d2 d3 : list Byte.byte) (u1 u2 u3 : string) (a1 a2 a3 : NavApp)
    (c : Controller) :
  currentState (downloadFinished d1 u1 a1 c) <> DOWNLOADING_STATUS
  /\ (currentState c = DOWNLOADING_WHAZZUP ->
      currentState (downloadFinished d1 u1 a1 c) <> DOWNLOADING_WHAZZUP)
  /\ (currentState c = DOWNLOADING_WHAZZUP_SERVERS ->
      currentState (downloadFinished d1 u1 a1 c) = NONE)
  /\ currentState
       (downloadFinished d3 u3 a3
          (downloadFinished d2 u2 a2 (downloadFinished d1 u1 a1 c)))
     = NONE.
Proof.
  pose proof (downloadFinished_next_stage d1 u1 a1 c) as H1.
  pose proof (downloadFinished_next_stage d2 u2 a2
                (downloadFinished d1 u1 a1 c)) as H2.
  pose proof (downloadFinished_next_stage d3 u3 a3
                (downloadFinished d2 u2 a2 (downloadFinished d1 u1 a1 c)))
    as H3.
  split; [|split; [|split]].
  - destruct (currentState c); intuition congruence.
  - intros Hst. rewrite Hst in H1. intuition congruence.
  - intros Hst. rewrite Hst in H1. exact H1.
  - destruct (currentState c);
      destruct (currentState (downloadFinished d1 u1 a1 c));
      try (intuition congruence);
      destruct (currentState
                  (downloadFinished d2 u2 a2 (downloadFinished d1 u1 a1 c)));
      intuition congruence.
Qed.

(** An effect changes nothing but the trace. *)
Lemma effect_keeps_caches (e : Effect) (d : Controller) :
  aircraftCache (effect e d) = aircraftCache d
  /\ simulatorAiRegistrations (effect e d) = simulatorAiRegistrations d
  /\ effects (effect e d) = effects d ++ [e].
Proof. repeat split; reflexivity. Qed.

(** X6: a completion emits a signal exactly when it has cleared the
    caches.  The signals of one completion are none (then the aircraft
    cache and the remembered registrations are untouched), or
    onlineClientAndAtcUpdated(true, true) alone, or that signal followed by
    onlineServersUpdated(true, true) (then the cache list and the
    remembered registrations are empty).  onlineServersUpdated never comes
    alone and onlineNetworkChanged never comes from a completion. *)
Theorem signals_come_with_cleared_caches (data : list Byte.byte)
    (url : string) (app : NavApp) (c : Controller) :
  let c' := downloadFinished data url app c in
  exists sigs,
    signalsOf (effects c') = signalsOf (effects c) ++ sigs
    /\ ((sigs = []
         /\ aircraftCache c' = aircraftCache c
         /\ simulatorAiRegistrations c' = simulatorAiRegistrations c)
        \/ ((sigs = [onlineClientAndAtcUpdated true true]
             \/ sigs = [onlineClientAndAtcUpdated true true;
                        onlineServersUpdated true true])
            /\ cacheList (aircraftCache c') = []
            /\ simulatorAiRegistrations c' = ∅)).
Proof.
  intros c'. subst c'.
  assert (Hfinal : forall d : Controller,
             effects d = effects c ->
             signalsOf (effects (finalizeWithUpdate app d))
             = signalsOf (effects c) ++ [onlineClientAndAtcUpdated true true]
             /\ cacheList (aircraftCache (finalizeWithUpdate app d)) = []
             /\ simulatorAiRegistrations (finalizeWithUpdate app d) = ∅).
  { intros d Hd. unfold finalizeWithUpdate. cbn zeta.
    rewrite finishCycle_spec. cbn -[int_wrap intervalSeconds].
    rewrite Hd, !signalsOf_app. cbn. rewrite !app_nil_r.
    repeat split; reflexivity. }
  destruct (currentState c) eqn:Hst.
  - exists []. unfold downloadFinished. rewrite Hst, app_nil_r.
    split; [reflexivity|]. left. repeat split; reflexivity.
  - exists []. rewrite (downloadFinished_status_eq data url app c Hst).
    cbn zeta. rewrite app_nil_r.
    destruct (isEmpty (getMessageFromStatus
                         (readFromStatus (manager c) (toUnicode data))));
      destruct (isEmpty (fst (getWhazzupUrlFromStatus
                                (readFromStatus (manager c) (toUnicode data))
                                (whazzupGzipped c))));
      rewrite ?finishCycle_spec; cbn -[int_wrap intervalSeconds];
      rewrite ?signalsOf_app; cbn [signalsOf]; rewrite ?app_nil_r;
      (split; [reflexivity|]); left; repeat split; reflexivity.
  - destruct (readWhazzupPayload data app c) as [m accepted] eqn:Hparse.
    rewrite (downloadFinished_whazzup data url app c m accepted Hst Hparse).
    cbn zeta.
    destruct accepted.
    + destruct (isEmpty (getWhazzupVoiceUrlFromStatus m)).
      * destruct (Hfinal (set_manager m c) eq_refl) as (Hs & Hc & Hr).
        eexists. split; [exact Hs|]. right.
        split; [left; reflexivity|]. split; [exact Hc|exact Hr].
      * case_bool_decide.
        -- exists []. cbn. rewrite !signalsOf_app. cbn. rewrite !app_nil_r.
           split; [reflexivity|]. left. repeat split; reflexivity.
        -- destruct (Hfinal (set_clockReads (S (clockReads c))
                               (set_manager m c)) eq_refl) as (Hs & Hc & Hr).
           eexists. split; [exact Hs|]. right.
           split; [left; reflexivity|]. split; [exact Hc|exact Hr].
    + exists []. rewrite finishCycle_spec. cbn -[int_wrap intervalSeconds].
      rewrite !signalsOf_app. cbn. rewrite !app_nil_r.
      split; [reflexivity|]. left. repeat split; reflexivity.
  - rewrite (downloadFinished_servers_eq data url app c Hst). cbn zeta.
    match goal with
    | |- context [finalizeWithUpdate app ?d] =>
        destruct (Hfinal d eq_refl) as (Hs & Hc & Hr)
    end.
    match goal with
    | |- context [effect ?e (finalizeWithUpdate app ?d)] =>
        destruct (effect_keeps_caches e (finalizeWithUpdate app d))
          as (Hcache & Hregs & Heff)
    end.
    rewrite Hcache, Hregs, Heff, signalsOf_app, Hs, Hc, Hr.
    cbn [signalsOf]. rewrite <- app_assoc.
    eexists. split; [reflexivity|].
    right. split; [right; reflexivity|]. split; reflexivity.
Qed.

(** X7: a completion that arrives when no download stage is active is
    dropped: after [stopAllProcesses], and after a start without a
    network, [downloadFinished] changes nothing at all. *)
Theorem late_completion_is_ignored (data : list Byte.byte) (url : string)
    (app app' : NavApp) (c : Controller) :
  downloadFinished data url app (stopAllProcesses c) = stopAllProcesses c
  /\ (isNetworkActive (optionData app') = false ->
      downloadFinished data url app (startProcessing app' c)
      = startProcessing app' c).
Proof.
  split; [reflexivity|].
  intros Hnet. unfold isNetworkActive in Hnet.
  apply bool_decide_eq_false_1 in Hnet.
  assert (Hnone : getOnlineNetwork (optionData app') = ONLINE_NONE).
  { destruct (decide (getOnlineNetwork (optionData app') = ONLINE_NONE));
      [assumption|contradiction]. }
  unfold startProcessing, startDownloadInternal. cbn zeta.
  rewrite bool_decide_eq_true_2 by exact Hnone. reflexivity.
Qed.

(** Every entry point leaves the timer stopped or the chain idle. *)
Lemma perform_timer_or_idle (app : NavApp) (call : Call) (c : Controller) :
  timerExcludesDownload c -> timerExcludesDownload (perform app call c).
Proof.
  unfold timerExcludesDownload. intros Hinv.
  assert (Hstart : forall (a : NavApp) (d : Controller),
             timerActive (startDownloadInternal a d) = true ->
             currentState (startDownloadInternal a d) = NONE).
  { intros a d Ht.
    destruct (startDownloadInternal_frame a d) as (_ & _ & Hoff & _).
    rewrite Hoff in Ht. discriminate Ht. }
  destruct call as [data url|error url| | | | |]; cbn [perform].
  - pose proof (downloadFinished_next_stage data url app c) as Hnext.
    destruct (currentState c) eqn:Hst.
    + intros _. exact Hnext.
    + assert (Hoff : timerActive c = false).
      { destruct (timerActive c); [|reflexivity].
        specialize (Hinv eq_refl). discriminate Hinv. }
      rewrite (downloadFinished_status_eq data url app c Hst). cbn zeta.
      destruct (isEmpty (fst (getWhazzupUrlFromStatus
                  (readFromStatus (manager c) (toUnicode data))
                  (whazzupGzipped c)))).
      * intros _. reflexivity.
      * destruct (isEmpty (getMessageFromStatus
                             (readFromStatus (manager c) (toUnicode data))));
          cbn; rewrite Hoff; discriminate.
    + assert (Hoff : timerActive c = false).
      { destruct (timerActive c); [|reflexivity].
        specialize (Hinv eq_refl). discriminate Hinv. }
      destruct (readWhazzupPayload data app c) as [m accepted] eqn:Hparse.
      rewrite (downloadFinished_whazzup data url app c m accepted Hst Hparse).
      cbn zeta. destruct accepted; [|intros _; reflexivity].
      destruct (isEmpty (getWhazzupVoiceUrlFromStatus m));
        [intros _; reflexivity|].
      case_bool_decide; [|intros _; reflexivity].
      cbn. rewrite Hoff. discriminate.
    + intros _. exact Hnext.
  - unfold downloadFailed, startProcessing. apply Hstart.
  - apply Hstart.
  - unfold startProcessing. apply Hstart.
  - unfold optionsChanged. apply Hstart.
  - exact Hinv.
  - exact Hinv.
Qed.

(** X8: the recurring timer and a download stage exclude each other.  If
    the timer runs only while the stage is NONE, this stays so after every
    sequence of calls of the connected slots and public entry points
    (completions, failures, timer timeouts, starts, option changes, query
    set-up and tear-down), whatever the payloads and the configuration
    are. *)
Theorem timer_runs_only_between_chains (calls : list (NavApp * Call))
    (c : Controller) :
  timerExcludesDownload c -> timerExcludesDownload (run calls c).
Proof.
  revert c. induction calls as [|[app call] rest IH]; intros c Hinv.
  - exact Hinv.
  - cbn [run]. apply IH. apply perform_timer_or_idle. exact Hinv.
Qed.

(** X9: the servers file is not fetched again within 15 minutes.  After a
    finished servers download and the next start, a finished whazzup
    download whose clock reading is at most 15 minutes after the reading
    that stamped the servers download ends the chain: whatever the parser
    and the status data say, the stage is NONE and not the servers stage,
    and the time of the last server download is still the old stamp. *)
Theorem servers_not_fetched_again_within_interval
    (d1 d2 : list Byte.byte) (u1 u2 : string) (a1 a2 a3 : NavApp)
    (c : Controller) :
  let c1 := downloadFinished d1 u1 a1 c in
  let c2 := startDownloadInternal a2 c1 in
  let c3 := downloadFinished d2 u2 a3 c2 in
  currentState c = DOWNLOADING_WHAZZUP_SERVERS ->
  currentState c2 = DOWNLOADING_WHAZZUP ->
  currentDateTime (S (S (clockReads c))) - currentDateTime (clockReads c)
    <= MIN_SERVER_DOWNLOAD_INTERVAL_MIN * 60 * 1000 ->
  currentState c3 = NONE
  /\ lastServerDownload c3 = currentDateTime (clockReads c).
Proof.
  intros c1 c2 c3 Hservers Hwhazzup Hclock.
  assert (Hlast : lastServerDownload c1 = currentDateTime (clockReads c)).
  { subst c1. rewrite (downloadFinished_servers_eq d1 u1 a1 c Hservers).
    reflexivity. }
  assert (Hreads : clockReads c1 = S (S (clockReads c))).
  { subst c1. rewrite (downloadFinished_servers_eq d1 u1 a1 c Hservers).
    reflexivity. }
  destruct (startDownloadInternal_manager a2 c1) as (_ & Hreads2 & Hlast2 & _).
  fold c2 in Hreads2, Hlast2.
  rewrite Hreads in Hreads2. rewrite Hlast in Hlast2.
  subst c3.
  destruct (readWhazzupPayload d2 a3 c2) as [m accepted] eqn:Hparse.
  rewrite (downloadFinished_whazzup d2 u2 a3 c2 m accepted Hwhazzup Hparse).
  cbn zeta. rewrite Hreads2, Hlast2.
  destruct accepted; [|split; [reflexivity|exact Hlast2]].
  destruct (isEmpty (getWhazzupVoiceUrlFromStatus m));
    [split; [reflexivity|exact Hlast2]|].
  rewrite bool_decide_eq_false_2.
  - split; [reflexivity|exact Hlast2].
  - unfold addSecs. unfold MIN_SERVER_DOWNLOAD_INTERVAL_MIN in *. lia.
Qed.

(** Download effects carry no signal. *)
Lemma signalsOf_download_effects (tail : list Effect) :
  Forall (fun e => match e with
                   | SetDefaultUserAgentShort _ | SetUrl _
                   | PostStartDownload => True
                   | _ => False
                   end) tail ->
  signalsOf tail = [].
Proof.
  induction 1 as [|e rest He _ IH]; [reflexivity|].
  destruct e; try contradiction; exact IH.
Qed.

(** X10: an option change resets the status data and the stored clients of
    the manager, empties the aircraft cache and the remembered
    registrations, emits onlineClientAndAtcUpdated(true, true),
    onlineServersUpdated(true, true) and onlineNetworkChanged in this
    order and nothing else, puts both time stamps back to the epoch, and
    restarts the chain with the timer stopped: after the signals come only
    the second stop and the effects of the new download. *)
Theorem optionsChanged_resets_and_restarts (app : NavApp) (c : Controller) :
  let c' := optionsChanged app c in
  manager c' = clearData (resetForNewOptions (manager c))
  /\ lastUpdateTime c' = fromSecsSinceEpoch 0
  /\ lastServerDownload c' = fromSecsSinceEpoch 0
  /\ cacheList (aircraftCache c') = []
  /\ simulatorAiRegistrations c' = ∅
  /\ timerActive c' = false
  /\ signalsOf (effects c') =
       signalsOf (effects c)
       ++ [onlineClientAndAtcUpdated true true;
           onlineServersUpdated true true; onlineNetworkChanged]
  /\ exists tail,
       effects c' =
         effects c
         ++ [CancelDownload; TimerStop;
             Emit (onlineClientAndAtcUpdated true true);
             Emit (onlineServersUpdated true true);
             Emit onlineNetworkChanged; CancelDownload; TimerStop]
         ++ tail
       /\ Forall (fun e => match e with
                           | SetDefaultUserAgentShort _ | SetUrl _
                           | PostStartDownload => True
                           | _ => False
                           end) tail.
Proof.
  intros c'. subst c'. unfold optionsChanged. cbn zeta.
  match goal with
  | |- context [startDownloadInternal app ?d] => set (before := d)
  end.
  destruct (startDownloadInternal_manager app before)
    as (Hm & _ & Hls & Hlu).
  destruct (startDownloadInternal_frame app before)
    as (Hcache & Hregs & Htimer & tail & Heff & Htail).
  assert (Heffects :
            effects (startDownloadInternal app before) =
              effects c
              ++ [CancelDownload; TimerStop;
                  Emit (onlineClientAndAtcUpdated true true);
                  Emit (onlineServersUpdated true true);
                  Emit onlineNetworkChanged; CancelDownload; TimerStop]
              ++ tail).
  { rewrite Heff. subst before. rewrite stopAllProcesses_spec.
    cbn [effect effects set_manager set_whazzupGzipped aircraftCacheClear
         set_aircraftCache set_simulatorAiRegistrations set_lastUpdateTime
         set_lastServerDownload].
    rewrite <- !app_assoc. reflexivity. }
  split; [rewrite Hm; reflexivity|].
  split; [rewrite Hlu; reflexivity|].
  split; [rewrite Hls; reflexivity|].
  split; [rewrite Hcache; reflexivity|].
  split; [exact Hregs|]. split; [exact Htimer|].
  split.
  - rewrite Heffects, !signalsOf_app.
    rewrite (signalsOf_download_effects tail Htail), app_nil_r. reflexivity.
  - exists tail. split; [exact Heffects|exact Htail].
Qed.

(** X11: for every network that is not a custom one the interval is at
    least 60 seconds, also when the advice of the whazzup file is zero,
    negative or overflows the multiplication by 60; and when the seconds
    fit into an [int] of milliseconds the timer is armed with exactly that
    interval, so with at least one minute. *)
Theorem reschedule_interval_has_floor (app : NavApp) (c : Controller) :
  let od := optionData app in
  let seconds := intervalSeconds od (manager c) in
  getOnlineNetwork od <> ONLINE_CUSTOM ->
  getOnlineNetwork od <> ONLINE_CUSTOM_STATUS ->
  60 <= seconds
  /\ (int_range (seconds * 1000) ->
      timerInterval (startDownloadTimer app c) = seconds * 1000
      /\ 60000 <= timerInterval (startDownloadTimer app c)).
Proof.
  intros od seconds Hc Hcs.
  assert (Hfloor : 60 <= seconds).
  { subst seconds. unfold intervalSeconds.
    rewrite !bool_decide_eq_false_2 by assumption. cbn [orb].
    case_bool_decide; lia. }
  split; [exact Hfloor|].
  intros Hrange.
  assert (Hms : timerInterval (startDownloadTimer app c) = seconds * 1000).
  { change (timerInterval (startDownloadTimer app c))
      with (int_wrap (seconds * 1000)).
    apply int_wrap_in_range. exact Hrange. }
  split; [exact Hms|]. rewrite Hms. lia.
Qed.

(** Neither a start nor a completion nor an option change touches the
    prepared query. *)
Lemma chain_keeps_query_pointer (data : list Byte.byte) (url : string)
    (app : NavApp) (c : Controller) :
  aircraftByRectQuery (startDownloadInternal app c) = aircraftByRectQuery c
  /\ aircraftByRectQuery (downloadFinished data url app c)
     = aircraftByRectQuery c
  /\ aircraftByRectQuery (optionsChanged app c) = aircraftByRectQuery c.
Proof.
  assert (Hstart : forall d : Controller,
             aircraftByRectQuery (startDownloadInternal app d)
             = aircraftByRectQuery d).
  { intros d. unfold startDownloadInternal. rewrite stopAllProcesses_spec.
    cbn [manager whazzupGzipped currentState].
    destruct (bool_decide (getOnlineNetwork (optionData app) = ONLINE_NONE));
      [reflexivity|].
    destruct (getWhazzupUrlFromStatus (manager d) (whazzupGzipped d))
      as [fromStatus gz].
    cbn [set_whazzupGzipped currentState].
    rewrite bool_decide_eq_true_2 by reflexivity.
    destruct (optionsNoUserAgent app), (isEmpty fromStatus),
      (isEmpty (getOnlineStatusUrl (optionData app))) eqn:Hs,
      (isEmpty (getOnlineWhazzupUrl (optionData app))) eqn:Hw;
      cbn; rewrite ?Hs, ?Hw; cbn;
      try (destruct fromStatus; cbn); reflexivity. }
  split; [apply Hstart|]. split.
  - destruct (currentState c) eqn:Hst.
    + unfold downloadFinished. rewrite Hst. reflexivity.
    + unfold downloadFinished. rewrite Hst.
      cbn [set_manager manager whazzupGzipped].
      destruct (getWhazzupUrlFromStatus _ _) as [whazzupUrl gz].
      cbn [set_whazzupGzipped set_manager manager].
      destruct (isEmpty (getMessageFromStatus _)), (isEmpty whazzupUrl);
        reflexivity.
    + destruct (readWhazzupPayload data app c) as [m accepted] eqn:Hparse.
      rewrite (downloadFinished_whazzup data url app c m accepted Hst Hparse).
      cbn zeta. destruct accepted; [|reflexivity].
      destruct (isEmpty (getWhazzupVoiceUrlFromStatus m)); [reflexivity|].
      case_bool_decide; reflexivity.
    + unfold downloadFinished. rewrite Hst. reflexivity.
  - unfold optionsChanged. cbn zeta. rewrite Hstart. reflexivity.
Qed.

(** A completion is silent or leaves the cache list empty. *)
Lemma downloadFinished_silent_or_cleared (data : list Byte.byte)
    (url : string) (app : NavApp) (c : Controller) :
  signalsOf (effects (downloadFinished data url app c))
    = signalsOf (effects c)
  \/ cacheList (aircraftCache (downloadFinished data url app c)) = [].
Proof.
  destruct (currentState c) eqn:Hst.
  - left. unfold downloadFinished. rewrite Hst. reflexivity.
  - left. rewrite (downloadFinished_status_eq data url app c Hst). cbn zeta.
    destruct (isEmpty (getMessageFromStatus
                         (readFromStatus (manager c) (toUnicode data))));
      destruct (isEmpty (fst (getWhazzupUrlFromStatus
                                (readFromStatus (manager c) (toUnicode data))
                                (whazzupGzipped c))));
      rewrite ?finishCycle_spec; cbn -[int_wrap intervalSeconds];
      rewrite ?signalsOf_app; cbn [signalsOf]; rewrite ?app_nil_r;
      reflexivity.
  - destruct (readWhazzupPayload data app c) as [m accepted] eqn:Hparse.
    rewrite (downloadFinished_whazzup data url app c m accepted Hst Hparse).
    cbn zeta. destruct accepted.
    + destruct (isEmpty (getWhazzupVoiceUrlFromStatus m));
        [right; reflexivity|].
      case_bool_decide; [|right; reflexivity].
      left. cbn. rewrite !signalsOf_app. cbn. rewrite !app_nil_r.
      reflexivity.
    + left. rewrite finishCycle_spec. cbn -[int_wrap intervalSeconds].
      rewrite !signalsOf_app. cbn. rewrite !app_nil_r. reflexivity.
  - right. rewrite (downloadFinished_servers_eq data url app c Hst).
    reflexivity.
Qed.
End ChainFurther.

(** * Further properties of the spatial queries *)

Section SpatialFurther.
Context {geo : GeoApi} {mgr : ManagerApi} {plat : PlatformApi}.

(** Inserting the aircraft of a list one after the other: the last one with
    a registration decides its position. *)
Lemma foldl_insert_registrations (l : list SimConnectAircraft)
    (m : gmap string Pos) (key : string) :
  foldl (fun (m : gmap string Pos) aircraft =>
           <[getAirplaneRegistration aircraft := getPosition aircraft]> m)
        m l !! key
  = match lastWithRegistration key l with
    | Some aircraft => Some (getPosition aircraft)
    | None => m !! key
    end.
Proof.
  unfold lastWithRegistration.
  induction l as [|a l IH] using rev_ind; [reflexivity|].
  rewrite foldl_app, rev_app_distr. cbn [foldl rev List.app List.find].
  case_bool_decide as Hkey.
  - rewrite Hkey. apply lookup_insert_eq.
  - rewrite lookup_insert_ne by exact Hkey. exact IH.
Qed.

(** The empty registration is removed last. *)
Lemma curRegistrationsOf_no_empty_key (app : NavApp) :
  curRegistrationsOf app !! EmptyString = None.
Proof. unfold curRegistrationsOf. cbn zeta. apply lookup_delete_eq. Qed.

(** X12: the registration snapshot of a query never has the empty
    registration as a key, and for every other registration it holds the
    position of the last aircraft with that registration among the user
    aircraft followed, if the simulator is connected or the user aircraft
    is a debug aircraft, by the AI aircraft in their order: an AI aircraft
    with the registration of the user aircraft replaces its position, and
    without a connection the AI aircraft are not looked at. *)
Theorem registration_snapshot_contents (app : NavApp) (key : string) :
  curRegistrationsOf app !! key
  = if isEmpty key then None
    else getPosition <$> lastWithRegistration key (registrationSources app).
Proof.
  unfold curRegistrationsOf, registrationSources. cbn zeta.
  destruct key as [|ch key'].
  - cbn [isEmpty]. apply lookup_delete_eq.
  - cbn [isEmpty]. rewrite lookup_delete_ne by discriminate.
    set (key := String ch key').
    assert (Huser : forall ai : list SimConnectAircraft,
               foldl (fun (m : gmap string Pos) aircraft =>
                        <[getAirplaneRegistration aircraft
                          := getPosition aircraft]> m)
                     (<[getAirplaneRegistration (getUserAircraft app)
                        := getPosition (getUserAircraft app)]> ∅) ai !! key
               = getPosition
                   <$> lastWithRegistration key (getUserAircraft app :: ai)).
    { intros ai.
      change (foldl _ _ ai)
        with (foldl (fun (m : gmap string Pos) aircraft =>
                       <[getAirplaneRegistration aircraft
                         := getPosition aircraft]> m)
                    ∅ (getUserAircraft app :: ai)).
      rewrite foldl_insert_registrations.
      destruct (lastWithRegistration key (getUserAircraft app :: ai));
        [reflexivity|apply lookup_empty]. }
    destruct (isConnected app || userAircraftIsDebug app).
    + apply Huser.
    + apply (Huser []).
Qed.

(** X13: a client without a registration is never taken for a duplicate of
    a simulator aircraft: every row with an empty registration is appended
    by the row loop, and so is every record the list held before. *)
Theorem rows_without_registration_are_kept (app : NavApp)
    (rows : list SqlRecord) (l : list SimConnectAircraft)
    (aircraft : SimConnectAircraft) :
  In aircraft l
  \/ (In aircraft (fillFromClient <$> rows)
      /\ getAirplaneRegistration aircraft = EmptyString) ->
  In aircraft (appendClients (curRegistrationsOf app) rows l).
Proof.
  rewrite appendClients_filter, in_app_iff, List.filter_In.
  intros [Hold|[Hrow Hreg]]; [left; exact Hold|right].
  split; [exact Hrow|].
  apply notDuplicate_true. left. rewrite Hreg.
  apply curRegistrationsOf_no_empty_key.
Qed.

(** The head of a query changes nothing but the aircraft cache. *)
Lemma invalidateCache_only_cache (rect : GeoDataLatLonBox)
    (mapLayer : MapLayer) (lazy : bool) (app : NavApp) (c : Controller) :
  invalidateCache rect mapLayer lazy app c
  = set_aircraftCache
      (aircraftCache (invalidateCache rect mapLayer lazy app c)) c.
Proof.
  unfold invalidateCache. cbn zeta. case_bool_decide; reflexivity.
Qed.

(** The head of a query does not fill an empty cache. *)
Lemma invalidateCache_keeps_empty (rect : GeoDataLatLonBox)
    (mapLayer : MapLayer) (lazy : bool) (app : NavApp) (c : Controller) :
  cacheList (aircraftCache c) = [] ->
  cacheList (aircraftCache (invalidateCache rect mapLayer lazy app c)) = [].
Proof.
  intros Hempty. unfold invalidateCache. cbn zeta.
  case_bool_decide; [reflexivity|].
  cbn [set_aircraftCache aircraftCache]. unfold updateCache.
  destruct lazy; [exact Hempty|].
  destruct (curRect (aircraftCache c)); [|reflexivity].
  destruct (curMapLayer (aircraftCache c)); [|reflexivity].
  destruct (inflatedContains _ _ _ _ && _); [exact Hempty|reflexivity].
Qed.

(** The rectangle loop without a prepared query. *)
Lemma queryRects_unprepared (cur : gmap string Pos)
    (rects : list GeoDataLatLonBox) (c : Controller) :
  aircraftByRectQuery c = false ->
  queryRects cur rects c = match rects with [] => Some c | _ :: _ => None end.
Proof.
  intros Hq. destruct rects as [|r rest]; [reflexivity|].
  cbn [queryRects]. rewrite Hq. reflexivity.
Qed.

(** X14: a spatial query does not disturb the download chain: if it
    returns, the stage, the timer, the manager, the gzip flag, both time
    stamps, the clock and the prepared query are as before and no signal
    has been emitted; the only new effects are SQL queries.  The
    remembered registrations are the old ones or the fresh snapshot, and a
    lazy query keeps the old ones and adds no effect at all. *)
Theorem query_leaves_chain_alone (rect : GeoDataLatLonBox)
    (mapLayer : MapLayer) (lazy : bool) (app : NavApp) (c c' : Controller)
    (l : list SimConnectAircraft) :
  getAircraft rect mapLayer lazy app c = Some (l, c') ->
  currentState c' = currentState c
  /\ timerActive c' = timerActive c
  /\ timerInterval c' = timerInterval c
  /\ manager c' = manager c
  /\ whazzupGzipped c' = whazzupGzipped c
  /\ lastUpdateTime c' = lastUpdateTime c
  /\ lastServerDownload c' = lastServerDownload c
  /\ clockReads c' = clockReads c
  /\ aircraftByRectQuery c' = aircraftByRectQuery c
  /\ signalsOf (effects c') = signalsOf (effects c)
  /\ (exists rects, effects c' = effects c ++ (QueryExec <$> rects))
  /\ (simulatorAiRegistrations c' = simulatorAiRegistrations c
      \/ simulatorAiRegistrations c' = curRegistrationsOf app)
  /\ (lazy = true ->
      simulatorAiRegistrations c' = simulatorAiRegistrations c
      /\ effects c' = effects c).
Proof.
  unfold getAircraft. cbn zeta.
  rewrite (invalidateCache_only_cache rect mapLayer lazy app c).
  set (cache0 := aircraftCache (invalidateCache rect mapLayer lazy app c)).
  cbn [set_aircraftCache aircraftCache].
  destruct (bool_decide (cacheList cache0 = []) && negb lazy) eqn:Hrebuild.
  - apply andb_true_iff in Hrebuild. destruct Hrebuild as [_ Hlazy].
    apply negb_true_iff in Hlazy. subst lazy.
    destruct (aircraftByRectQuery c) eqn:Hq.
    + rewrite queryRects_prepared by exact Hq.
      intros Hsome. injection Hsome as _ <-.
      cbn [set_aircraftCache set_simulatorAiRegistrations currentState
           timerActive timerInterval manager whazzupGzipped lastUpdateTime
           lastServerDownload clockReads aircraftByRectQuery effects
           simulatorAiRegistrations].
      repeat split; try reflexivity; try discriminate.
      * rewrite signalsOf_app.
        assert (Hnone : forall rs : list GeoDataLatLonBox,
                   signalsOf (QueryExec <$> rs) = []).
        { induction rs as [|r rs IH]; [reflexivity|exact IH]. }
        rewrite Hnone. apply app_nil_r.
      * eexists. reflexivity.
      * right. reflexivity.
    + rewrite queryRects_unprepared by exact Hq.
      destruct (splitAtAntiMeridian rect queryRectInflationFactor
                  queryRectInflationIncrement); [|discriminate].
      intros Hsome. injection Hsome as _ <-.
      cbn. repeat split; try reflexivity; try discriminate; try exact Hq.
      * exists []. symmetry. apply app_nil_r.
      * right. reflexivity.
  - intros Hsome. injection Hsome as _ <-.
    cbn. repeat split; try reflexivity.
    + exists []. symmetry. apply app_nil_r.
    + left. reflexivity.
Qed.

(** X15: after [initQueries] the cache is empty and the query prepared, so
    the first query that is not lazy always returns and reads the backing
    store: one SQL query per rectangle of the split, the rows that are no
    duplicates in order, truncated to the row ceiling, and the fresh
    snapshot is remembered.  A lazy query at that point returns the empty
    list without any SQL query. *)
Theorem first_query_after_initQueries (rect : GeoDataLatLonBox)
    (mapLayer : MapLayer) (app : NavApp) (c : Controller) :
  let c0 := initQueries c in
  let rects :=
    splitAtAntiMeridian rect queryRectInflationFactor
      queryRectInflationIncrement in
  let kept :=
    List.filter (notDuplicate (curRegistrationsOf app))
      (fillFromClient
         <$> concat (selectClientsInRect (manager c0) <$> rects)) in
  (exists c',
     getAircraft rect mapLayer false app c0
       = Some (take (Z.to_nat queryMaxRows) kept, c')
     /\ effects c' = effects c ++ (QueryExec <$> rects)
     /\ simulatorAiRegistrations c' = curRegistrationsOf app)
  /\ (exists c',
       getAircraft rect mapLayer true app c0 = Some ([], c')
       /\ effects c' = effects c).
Proof.
  intros c0 rects kept.
  assert (Hempty : forall lazy : bool,
             cacheList (aircraftCache
                          (invalidateCache rect mapLayer lazy app c0)) = []).
  { intros lazy. apply invalidateCache_keeps_empty. reflexivity. }
  split.
  - destruct (getAircraft_rebuild rect mapLayer app c0 eq_refl (Hempty false))
      as (c' & Hget & _ & Heff & Hregs).
    exists c'. split; [exact Hget|]. split; [exact Heff|exact Hregs].
  - rewrite getAircraft_cached by (left; reflexivity).
    rewrite (Hempty true), take_nil.
    eexists. split; [reflexivity|].
    destruct (invalidateCache_frame rect mapLayer true app c0) as (Heff & _).
    exact Heff.
Qed.

(** X16: a query has no result exactly when it has to read the backing
    store without a prepared SQL query: it is not lazy, the cache is empty
    after the head of the query, the query pointer is null and the split
    yields at least one rectangle.  In particular, after [deInitQueries] a
    lazy query still returns (the empty list, without an SQL query), while
    a query that is not lazy fails as soon as there is a rectangle to
    read. *)
Theorem query_fails_only_without_prepared_query (rect : GeoDataLatLonBox)
    (mapLayer : MapLayer) (lazy : bool) (app : NavApp) (c : Controller) :
  let rects :=
    splitAtAntiMeridian rect queryRectInflationFactor
      queryRectInflationIncrement in
  (getAircraft rect mapLayer lazy app c = None
   <-> lazy = false
       /\ aircraftByRectQuery c = false
       /\ cacheList (aircraftCache (invalidateCache rect mapLayer lazy app c))
          = []
       /\ rects <> [])
  /\ (exists c',
       getAircraft rect mapLayer true app (deInitQueries c) = Some ([], c')
       /\ effects c' = effects c)
  /\ (rects <> [] ->
      getAircraft rect mapLayer false app (deInitQueries c) = None).
Proof.
  intros rects.
  assert (Hiff : forall (lz : bool) (d : Controller),
             getAircraft rect mapLayer lz app d = None
             <-> lz = false
                 /\ aircraftByRectQuery d = false
                 /\ cacheList
                      (aircraftCache (invalidateCache rect mapLayer lz app d))
                    = []
                 /\ rects <> []).
  { intros lz d. unfold getAircraft. cbn zeta.
    destruct (invalidateCache_frame rect mapLayer lz app d)
      as (_ & _ & Hq0 & _).
    set (d0 := invalidateCache rect mapLayer lz app d) in *.
    destruct lz.
    - rewrite andb_false_r. split; [discriminate|].
      intros (Hlazy & _). discriminate Hlazy.
    - cbn [negb]. rewrite andb_true_r.
      case_bool_decide as Hempty.
      + destruct (aircraftByRectQuery d) eqn:Hq.
        * rewrite queryRects_prepared by (rewrite Hq0; reflexivity).
          split; [discriminate|]. intros (_ & Hfalse & _). discriminate Hfalse.
        * rewrite queryRects_unprepared by (rewrite Hq0; reflexivity).
          fold rects. destruct rects as [|r rest].
          -- split; [discriminate|]. intros (_ & _ & _ & Hne).
             contradiction.
          -- split; [|reflexivity]. intros _.
             repeat split; try reflexivity; [exact Hempty|discriminate].
      + split; [discriminate|]. intros (_ & _ & He & _). contradiction. }
  split; [apply Hiff|].
  assert (Hempty : forall lz : bool,
             cacheList (aircraftCache
                          (invalidateCache rect mapLayer lz app
                             (deInitQueries c))) = []).
  { intros lz. apply invalidateCache_keeps_empty. reflexivity. }
  split.
  - rewrite getAircraft_cached by (left; reflexivity).
    rewrite (Hempty true), take_nil.
    eexists. split; [reflexivity|].
    destruct (invalidateCache_frame rect mapLayer true app (deInitQueries c))
      as (Heff & _).
    exact Heff.
  - intros Hne. apply Hiff.
    split; [reflexivity|]. split; [reflexivity|].
    split; [apply Hempty|exact Hne].
Qed.

(** X17: new data reaches the map.  When a completion has emitted a signal,
    or the options have changed, the cache is empty, so the next query that
    is not lazy reads the backing store of the manager as it is then: with
    the query prepared it returns the rows that are no duplicates,
    truncated to the row ceiling, after one SQL query per rectangle. *)
Theorem query_after_update_reads_store (data : list Byte.byte) (url : string)
    (app app' : NavApp) (rect : GeoDataLatLonBox) (mapLayer : MapLayer)
    (c : Controller) :
  let rects :=
    splitAtAntiMeridian rect queryRectInflationFactor
      queryRectInflationIncrement in
  let kept (m : OnlinedataManager) :=
    List.filter (notDuplicate (curRegistrationsOf app'))
      (fillFromClient <$> concat (selectClientsInRect m <$> rects)) in
  let reads (d : Controller) :=
    exists d',
      getAircraft rect mapLayer false app' d
        = Some (take (Z.to_nat queryMaxRows) (kept (manager d)), d')
      /\ effects d' = effects d ++ (QueryExec <$> rects) in
  aircraftByRectQuery c = true ->
  (signalsOf (effects (downloadFinished data url app c))
     <> signalsOf (effects c) ->
   reads (downloadFinished data url app c))
  /\ reads (optionsChanged app c).
Proof.
  intros rects kept reads Hq.
  destruct (chain_keeps_query_pointer data url app c) as (_ & Hqf & Hqo).
  assert (Hreads : forall d : Controller,
             aircraftByRectQuery d = true ->
             cacheList (aircraftCache d) = [] -> reads d).
  { intros d Hqd Hempty.
    destruct (getAircraft_rebuild rect mapLayer app' d Hqd)
      as (d' & Hget & _ & Heff & _).
    { apply invalidateCache_keeps_empty. exact Hempty. }
    exists d'. split; [exact Hget|exact Heff]. }
  split.
  - intros Hsig. apply Hreads; [rewrite Hqf; exact Hq|].
    destruct (downloadFinished_silent_or_cleared data url app c)
      as [Hsame|Hcache]; [contradiction|exact Hcache].
  - apply Hreads; [rewrite Hqo; exact Hq|].
    unfold optionsChanged. cbn zeta.
    match goal with
    | |- context [startDownloadInternal app ?d] =>
        destruct (startDownloadInternal_frame app d) as (Hcache & _)
    end.
    rewrite Hcache. reflexivity.
Qed.
End SpatialFurther.

(** ** The further properties on the concrete world *)

Section SampleRunsFurther.
#[local] Existing Instances Sample.geo Sample.mgr Sample.plat.

Lemma start_without_network_only_stops_witness :
  let m := Sample.managerState "http://voice" 2 in
  let c := Sample.controller DOWNLOADING_WHAZZUP m 0 [] ∅ true in
  let c' := startProcessing (Sample.app (Sample.options ONLINE_NONE 180 (-1))) c in
  currentState c' = NONE
  /\ effects c' = [CancelDownload; TimerStop]
  /\ timerActive c' = false.
Proof.
  intros m c c'.
  pose proof (start_without_network_only_stops
                (Sample.app (Sample.options ONLINE_NONE 180 (-1))) c eq_refl)
    as (Hst & Heff & Htimer & _).
  split; [exact Hst|]. split; [exact Heff|exact Htimer].
Defined.

Lemma start_url_precedence_witness :
  let known := Sample.managerState "http://voice" 2 in
  let fresh := Sample.withWhazzupUrl EmptyString known in
  let app := Sample.app (Sample.options ONLINE_VATSIM 180 (-1)) in
  (currentState
     (startDownloadInternal app (Sample.controller NONE known 0 [] ∅ true))
   = DOWNLOADING_WHAZZUP
   /\ effects
        (startDownloadInternal app (Sample.controller NONE known 0 [] ∅ true))
      = [CancelDownload; TimerStop;
         SetDefaultUserAgentShort " Config/VATSIM";
         SetUrl "http://whazzup.gz"; PostStartDownload])
  /\ (currentState
        (startDownloadInternal app (Sample.controller NONE fresh 0 [] ∅ true))
      = DOWNLOADING_STATUS
      /\ effects
           (startDownloadInternal app
              (Sample.controller NONE fresh 0 [] ∅ true))
         = [CancelDownload; TimerStop;
            SetDefaultUserAgentShort " Config/VATSIM";
            SetUrl "http://status"; PostStartDownload]).
Proof.
  intros known fresh app.
  assert (Hnet : getOnlineNetwork (optionData app) <> ONLINE_NONE)
    by discriminate.
  pose proof (start_url_precedence app
                (Sample.controller NONE known 0 [] ∅ true) Hnet)
    as (_ & Hknown & _).
  pose proof (start_url_precedence app
                (Sample.controller NONE fresh 0 [] ∅ true) Hnet)
    as (_ & _ & Hfresh & _).
  split.
  - exact (Hknown eq_refl).
  - exact (Hfresh eq_refl eq_refl).
Defined.

Lemma status_stage_completion_witness :
  let m := Sample.managerState "http://voice" 2 in
  let c := Sample.controller DOWNLOADING_STATUS m 0 [] ∅ true in
  let app := Sample.app (Sample.options ONLINE_VATSIM 180 (-1)) in
  (currentState (downloadFinished [Byte.x41] "http://status" app c)
   = DOWNLOADING_WHAZZUP
   /\ effects (downloadFinished [Byte.x41] "http://status" app c)
      = [SetUrl "A"; PostStartDownload])
  /\ (currentState (downloadFinished [] "http://status" app c) = NONE
      /\ effects (downloadFinished [] "http://status" app c)
         = [TimerStop; TimerStart 120000]).
Proof.
  intros m c app.
  pose proof (status_stage_completion [Byte.x41] "http://status" app c
                eq_refl) as (_ & _ & _ & _ & _ & Hgo & _).
  pose proof (status_stage_completion [] "http://status" app c eq_refl)
    as (_ & _ & _ & _ & _ & _ & Hend).
  split.
  - destruct (Hgo eq_refl) as (Hst & Heff & _).
    split; [exact Hst|exact Heff].
  - destruct (Hend eq_refl) as (Hst & Heff & _).
    split; [exact Hst|exact Heff].
Defined.

Lemma servers_stage_completion_witness :
  let m := Sample.managerState "http://voice" 2 in
  let c :=
    Sample.controller DOWNLOADING_WHAZZUP_SERVERS m 0
      [Sample.aircraft 12 "G-ABCD" 3000] {["N12345" := 1000]} true in
  let c' :=
    downloadFinished [Byte.x41] "http://voice"
      (Sample.app (Sample.options ONLINE_VATSIM 180 (-1))) c in
  lastServerDownload c' = 900000
  /\ lastUpdateTime c' = 900001
  /\ currentState c' = NONE
  /\ cacheList (aircraftCache c') = []
  /\ effects c' =
       [TimerStop; TimerStart 120000;
        Emit (onlineClientAndAtcUpdated true true);
        Emit (onlineServersUpdated true true)].
Proof.
  intros m c c'.
  pose proof (servers_stage_completion [Byte.x41] "http://voice"
                (Sample.app (Sample.options ONLINE_VATSIM 180 (-1))) c
                eq_refl)
    as (_ & Hls & Hlu & _ & Hst & _ & _ & Hcache & _ & Heff).
  split; [exact Hls|]. split; [exact Hlu|]. split; [exact Hst|].
  split; [exact Hcache|exact Heff].
Defined.

Lemma chain_ends_within_three_completions_witness :
  let m := Sample.managerState "http://voice" 2 in
  let c := Sample.controller DOWNLOADING_WHAZZUP_SERVERS m 0 [] ∅ true in
  let app := Sample.app (Sample.options ONLINE_VATSIM 180 (-1)) in
  currentState (downloadFinished [Byte.x41] "http://voice" app c) = NONE
  /\ currentState
       (downloadFinished [] "c" app
          (downloadFinished [Byte.x41] "b" app
             (downloadFinished [Byte.x41] "http://voice" app c)))
     = NONE.
Proof.
  intros m c app.
  pose proof (chain_ends_within_three_completions
                [Byte.x41] [Byte.x41] [] "http://voice" "b" "c" app app app c)
    as (_ & _ & Hservers & Hthree).
  split; [exact (Hservers eq_refl)|exact Hthree].
Defined.

Lemma late_completion_is_ignored_witness :
  let m := Sample.managerState "http://voice" 2 in
  let c := Sample.controller DOWNLOADING_WHAZZUP m 0 [] ∅ true in
  let app := Sample.app (Sample.options ONLINE_VATSIM 180 (-1)) in
  let off := Sample.app (Sample.options ONLINE_NONE 180 (-1)) in
  downloadFinished [Byte.x41] "http://whazzup.gz" app (startProcessing off c)
  = startProcessing off c.
Proof.
  intros m c app off.
  pose proof (late_completion_is_ignored [Byte.x41] "http://whazzup.gz"
                app off c) as (_ & Hoff).
  exact (Hoff eq_refl).
Defined.

Lemma timer_runs_only_between_chains_witness :
  let m := Sample.managerState "http://voice" 2 in
  let c := Sample.controller NONE m 0 [] ∅ false in
  let app := Sample.app (Sample.options ONLINE_VATSIM 180 (-1)) in
  timerExcludesDownload
    (run [(app, CallInitQueries); (app, CallStartProcessing);
          (app, CallDownloadFinished [Byte.x41] "http://whazzup.gz");
          (app, CallDownloadFailed "timeout" "http://voice");
          (app, CallDownloadFinished [] "http://whazzup.gz");
          (app, CallTimerTimeout); (app, CallOptionsChanged)] c).
Proof.
  intros m c app.
  apply timer_runs_only_between_chains.
  unfold timerExcludesDownload. intros _. reflexivity.
Defined.

Lemma servers_not_fetched_again_within_interval_witness :
  let m := Sample.managerState "http://voice" 2 in
  let c := Sample.controller DOWNLOADING_WHAZZUP_SERVERS m 0 [] ∅ true in
  let app := Sample.app (Sample.options ONLINE_VATSIM 180 (-1)) in
  let c2 :=
    startDownloadInternal app
      (downloadFinished [Byte.x41] "http://voice" app c) in
  currentState c2 = DOWNLOADING_WHAZZUP
  /\ currentState (downloadFinished [Byte.x41] "http://whazzup.gz" app c2)
     = NONE
  /\ lastServerDownload
       (downloadFinished [Byte.x41] "http://whazzup.gz" app c2)
     = 900000.
Proof.
  intros m c app c2.
  assert (Hclock : currentDateTime (S (S (clockReads c)))
                   - currentDateTime (clockReads c)
                   <= MIN_SERVER_DOWNLOAD_INTERVAL_MIN * 60 * 1000)
    by (vm_compute; discriminate).
  pose proof (servers_not_fetched_again_within_interval
                [Byte.x41] [Byte.x41] "http://voice" "http://whazzup.gz"
                app app app c eq_refl eq_refl Hclock) as (Hst & Hls).
  split; [reflexivity|]. split; [exact Hst|exact Hls].
Defined.

Lemma reschedule_interval_has_floor_witness :
  let m := Sample.managerState "http://voice" (-5) in
  let c := Sample.controller NONE m 0 [] ∅ true in
  let app := Sample.app (Sample.options ONLINE_VATSIM 180 (-1)) in
  intervalSeconds (optionData app) m = 60
  /\ timerInterval (startDownloadTimer app c) = 60000.
Proof.
  intros m c app.
  assert (Hc : getOnlineNetwork (optionData app) <> ONLINE_CUSTOM)
    by discriminate.
  assert (Hcs : getOnlineNetwork (optionData app) <> ONLINE_CUSTOM_STATUS)
    by discriminate.
  pose proof (reschedule_interval_has_floor app c Hc Hcs) as (_ & Hms).
  split; [reflexivity|].
  assert (Hrange : int_range (intervalSeconds (optionData app) (manager c)
                              * 1000)).
  { unfold int_range. vm_compute. split; [discriminate|reflexivity]. }
  destruct (Hms Hrange) as (Heq & _). exact Heq.
Defined.

Lemma rows_without_registration_are_kept_witness :
  let m := Sample.managerState EmptyString 2 in
  let app := Sample.app (Sample.options ONLINE_VATSIM 180 (-1)) in
  In (Sample.aircraft 13 EmptyString 1000)
     (appendClients (curRegistrationsOf app) (Sample.clients m) []).
Proof.
  intros m app.
  apply rows_without_registration_are_kept.
  right. split; [|reflexivity].
  cbn. right. right. right. left. reflexivity.
Defined.

Lemma query_leaves_chain_alone_witness :
  let m := Sample.managerState EmptyString 2 in
  let app := Sample.app (Sample.options ONLINE_VATSIM 180 (-1)) in
  let c := Sample.controller DOWNLOADING_WHAZZUP m 0 [] ∅ true in
  exists l c',
    getAircraft (Sample.rect 0 100000) (Sample.layer 7) false app c
      = Some (l, c')
    /\ currentState c' = DOWNLOADING_WHAZZUP
    /\ timerActive c' = false
    /\ signalsOf (effects c') = [].
Proof.
  intros m app c.
  destruct (getAircraft (Sample.rect 0 100000) (Sample.layer 7) false app c)
    as [[l c']|] eqn:Hget.
  - exists l, c'. split; [reflexivity|].
    pose proof (query_leaves_chain_alone (Sample.rect 0 100000)
                  (Sample.layer 7) false app c c' l Hget)
      as (Hst & Htimer & _ & _ & _ & _ & _ & _ & _ & Hsig & _).
    split; [exact Hst|]. split; [exact Htimer|exact Hsig].
  - vm_compute in Hget. discriminate Hget.
Defined.

Lemma query_fails_only_without_prepared_query_witness :
  let m := Sample.managerState EmptyString 2 in
  let app := Sample.app (Sample.options ONLINE_VATSIM 180 (-1)) in
  let c :=
    Sample.controller NONE m 0 [Sample.aircraft 12 "G-ABCD" 3000] ∅ true in
  getAircraft (Sample.rect 0 100000) (Sample.layer 7) false app
    (deInitQueries c) = None
  /\ getAircraft (Sample.rect 0 100000) (Sample.layer 7) false app
       (Sample.controller NONE m 0 [] ∅ false) = None.
Proof.
  intros m app c.
  pose proof (query_fails_only_without_prepared_query (Sample.rect 0 100000)
                (Sample.layer 7) false app c) as (_ & _ & Hdeinit).
  pose proof (query_fails_only_without_prepared_query (Sample.rect 0 100000)
                (Sample.layer 7) false app
                (Sample.controller NONE m 0 [] ∅ false)) as (Hiff & _).
  split.
  - apply Hdeinit. vm_compute. discriminate.
  - apply Hiff. split; [reflexivity|]. split; [reflexivity|].
    split; [reflexivity|]. vm_compute. discriminate.
Defined.
Lemma query_after_update_reads_store_witness :
  let m := Sample.managerState EmptyString 2 in
  let app := Sample.app (Sample.options ONLINE_VATSIM 180 (-1)) in
  let c :=
    Sample.controller DOWNLOADING_WHAZZUP m 0
      [Sample.aircraft 10 "N12345" 2000] {["N12345" := 1000]} true in
  exists c',
    getAircraft (Sample.rect 0 100000) (Sample.layer 7) false app
      (downloadFinished [Byte.x41] "http://whazzup.gz" app c)
    = Some ([Sample.aircraft 11 "N12345" 90000;
             Sample.aircraft 12 "G-ABCD" 3000;
             Sample.aircraft 13 EmptyString 1000], c')
    /\ queriesOf (effects c') = [Sample.rect 0 100000].
Proof.
  intros m app c.
  pose proof (query_after_update_reads_store [Byte.x41] "http://whazzup.gz"
                app app (Sample.rect 0 100000) (Sample.layer 7) c eq_refl)
    as (Hfinished & _).
  destruct Hfinished as (c' & Hget & Heff).
  { vm_compute. discriminate. }
  exists c'. split; [exact Hget|].
  rewrite Heff. reflexivity.
Defined.
End SampleRunsFurther.
